(** * Profile synchronisation engine of the RPG character builder

    A shallow embedding of [src/backend/profile_sync.py] (class
    [ProfileSync]) together with the properties of its replica
    synchronisation: content digests, the four-case reconciliation,
    the conflict resolution strategies and the bounded operation log.

    Modelling conventions.
    - A profile is a JSON object.  Python dictionaries keep insertion
      order and have unique keys: they are association lists here, and
      the uniqueness of keys is the predicate [wf].  Numbers are
      integers ([float] values are outside this model).
    - Text is a [string]; its characters stand for the code points
      U+0000 to U+00FF.
    - The profile directory is a finite map from file names to file
      contents; [datetime.now().isoformat()] reads a clock that is part
      of the world.
    - Python mutates the dictionary it is handed; here every operation
      returns the dictionary as it is after the call, and the callers
      thread it the way the Python code shares the object.
    - A file holds a JSON object or cannot be read; a file may refuse
      to be opened for writing.  [sync_all_profiles] takes what
      [os.listdir] returns as an argument, since the order of the
      names is the operating system's. *)

From Stdlib Require Import ZArith List Ascii String Lia DecimalString DecimalZ.
From stdpp Require Import base list strings gmap sorting.

Local Open Scope Z_scope.

(** ** JSON documents *)

Unset Elimination Schemes.
Inductive json : Type :=
| JNull
| JBool (b : bool)
| JInt (n : Z)
| JStr (s : string)
| JList (l : list json)
| JDict (d : list (string * json)).
Set Elimination Schemes.

Abbreviation dict := (list (string * json)).

(** [d.get(k)]: the value bound to [k], if any. *)
Fixpoint dict_get (k : string) (d : dict) : option json :=
  match d with
  | [] => None
  | (k', v) :: d' => if String.eqb k k' then Some v else dict_get k d'
  end.

(** [d[k] = v]: an existing key keeps its position, a new key goes last. *)
Fixpoint dict_set (k : string) (v : json) (d : dict) : dict :=
  match d with
  | [] => [(k, v)]
  | (k', v') :: d' =>
      if String.eqb k k' then (k, v) :: d' else (k', v') :: dict_set k v d'
  end.

(** [{**d1, **d2}]: a fresh dictionary holding [d1], then updated with
    every item of [d2] in turn. *)
Definition dict_union (d1 d2 : dict) : dict :=
  fold_left (fun acc kv => dict_set kv.1 kv.2 acc) d2 d1.

(** The truth value of an [Optional[Dict]], as [if profile] tests it:
    [None] and the empty dictionary are false.  [present] keeps the
    dictionary when the test succeeds. *)
Definition present (o : option dict) : option dict :=
  match o with
  | Some (kv :: d) => Some (kv :: d)
  | _ => None
  end.

(** Keys are unique at every nesting level, as in every Python
    dictionary. *)
Fixpoint wf (v : json) : bool :=
  match v with
  | JList l => forallb wf l
  | JDict d => bool_decide (NoDup d.*1) && forallb (fun kv => wf kv.2) d
  | _ => true
  end.

(** ** [json.dumps(v, sort_keys=True)] *)

Definition dquote : ascii := "034"%char.

Definition hex_digit (n : nat) : ascii :=
  nth n (list_ascii_of_string "0123456789abcdef") "0"%char.

(** One character of a string literal, as [ensure_ascii=True] writes it. *)
Definition escape_char (c : ascii) : string :=
  let n := nat_of_ascii c in
  if (n =? 34)%nat then String "\" (String dquote "")
  else if (n =? 92)%nat then "\\"
  else if (n =? 8)%nat then "\b"
  else if (n =? 12)%nat then "\f"
  else if (n =? 10)%nat then "\n"
  else if (n =? 13)%nat then "\r"
  else if (n =? 9)%nat then "\t"
  else if ((n <? 32) || (126 <? n))%nat
       then "\u00" +:+ String (hex_digit (n / 16)) (String (hex_digit (n mod 16)) "")
  else String c "".

Fixpoint escape (s : string) : string :=
  match s with
  | EmptyString => ""
  | String c s' => escape_char c +:+ escape s'
  end.

Definition encode_str (s : string) : string :=
  String dquote (escape s) +:+ String dquote "".

(** [repr] of an [int]. *)
Definition repr_int (n : Z) : string := NilZero.string_of_int (Z.to_int n).

Definition key_le (p q : string * string) : Prop := String.le p.1 q.1.

#[global] Instance key_le_dec : RelDecision key_le.
Proof. intros p q. unfold key_le. apply _. Defined.

(** The items of a dictionary, already serialised, in key order.
    Keys are unique, so every sorting algorithm gives this list. *)
Definition sort_items (l : list (string * string)) : list (string * string) :=
  merge_sort key_le l.

Definition item_text (p : string * string) : string :=
  encode_str p.1 +:+ ": " +:+ p.2.

Fixpoint dumps (v : json) : string :=
  match v with
  | JNull => "null"
  | JBool true => "true"
  | JBool false => "false"
  | JInt n => repr_int n
  | JStr s => encode_str s
  | JList l => "[" +:+ String.concat ", " (map dumps l) +:+ "]"
  | JDict d =>
      "{" +:+ String.concat ", "
                (map item_text (sort_items (map (fun kv => (kv.1, dumps kv.2)) d)))
          +:+ "}"
  end.

(** [str.encode()]: UTF-8. *)
Definition utf8_char (c : ascii) : list Z :=
  let n := Z.of_nat (nat_of_ascii c) in
  if n <? 128 then [n]
  else [Z.lor 192 (Z.shiftr n 6); Z.lor 128 (Z.land n 63)].

Fixpoint encode (s : string) : list Z :=
  match s with
  | EmptyString => []
  | String c s' => utf8_char c ++ encode s'
  end.

(** ** SHA-256 (FIPS 180-4), as [hashlib.sha256] computes it *)

Module SHA256.

Definition add32 (x y : Z) : Z := (x + y) mod 2 ^ 32.

Definition rotr (n x : Z) : Z :=
  Z.lor (Z.shiftr x n) (Z.shiftl x (32 - n) mod 2 ^ 32).

Definition Ch (x y z : Z) : Z :=
  Z.lxor (Z.land x y) (Z.land (Z.lxor x (2 ^ 32 - 1)) z).

Definition Maj (x y z : Z) : Z :=
  Z.lxor (Z.lxor (Z.land x y) (Z.land x z)) (Z.land y z).

Definition Sum0 (x : Z) : Z := Z.lxor (Z.lxor (rotr 2 x) (rotr 13 x)) (rotr 22 x).
Definition Sum1 (x : Z) : Z := Z.lxor (Z.lxor (rotr 6 x) (rotr 11 x)) (rotr 25 x).
Definition sig0 (x : Z) : Z := Z.lxor (Z.lxor (rotr 7 x) (rotr 18 x)) (Z.shiftr x 3).
Definition sig1 (x : Z) : Z := Z.lxor (Z.lxor (rotr 17 x) (rotr 19 x)) (Z.shiftr x 10).

(** The first sixty-four primes. *)
Definition primes : list Z :=
  [2; 3; 5; 7; 11; 13; 17; 19; 23; 29; 31; 37; 41; 43; 47; 53; 59; 61; 67; 71;
   73; 79; 83; 89; 97; 101; 103; 107; 109; 113; 127; 131; 137; 139; 149; 151;
   157; 163; 167; 173; 179; 181; 191; 193; 197; 199; 211; 223; 227; 229; 233;
   239; 241; 251; 257; 263; 269; 271; 277; 281; 283; 293; 307; 311].

(** Integer cube root below [2 ^ 40], one bit at a time. *)
Definition cube_root (n : Z) : Z :=
  fold_left (fun r i => let r' := r + 2 ^ Z.of_nat i in
                        if r' * r' * r' <=? n then r' else r)
            (rev (seq 0 40)) 0.

(** Round constants: the first 32 bits of the fractional parts of the
    cube roots of the primes. *)
Definition K : list Z :=
  Eval vm_compute in map (fun p => cube_root (p * 2 ^ 96) mod 2 ^ 32) primes.

(** Initial hash value: the same for the square roots of the first
    eight primes. *)
Definition H0 : list Z :=
  Eval vm_compute in map (fun p => Z.sqrt (p * 2 ^ 64) mod 2 ^ 32) (take 8 primes).

(** Padding: a one bit, zeros, and the bit length on 64 bits. *)
Definition be_bytes (n : nat) (x : Z) : list Z :=
  map (fun i => Z.shiftr x (8 * Z.of_nat i) mod 256) (rev (seq 0 n)).

Definition pad (msg : list Z) : list Z :=
  let len := Z.of_nat (length msg) in
  msg ++ [128] ++ repeat 0 (Z.to_nat ((55 - len) mod 64)) ++ be_bytes 8 (8 * len).

Definition be_word (bs : list Z) : Z :=
  fold_left (fun acc b => acc * 256 + b) bs 0.

(** The list cut in pieces of [n] elements. *)
Fixpoint chunks {A} (n fuel : nat) (l : list A) : list (list A) :=
  match fuel with
  | O => []
  | S fuel' =>
      match l with
      | [] => []
      | _ => take n l :: chunks n fuel' (drop n l)
      end
  end.

(** Message schedule, most recent word first. *)
Fixpoint schedule (n : nat) (w : list Z) : list Z :=
  match n with
  | O => w
  | S n' =>
      let x := add32 (add32 (add32 (sig1 (nth 1 w 0)) (nth 6 w 0))
                            (sig0 (nth 14 w 0)))
                     (nth 15 w 0) in
      schedule n' (x :: w)
  end.

Definition round (s : list Z) (kw : Z * Z) : list Z :=
  match s with
  | [a; b; c; d; e; f; g; h] =>
      let t1 := add32 (add32 (add32 (add32 h (Sum1 e)) (Ch e f g)) kw.1) kw.2 in
      let t2 := add32 (Sum0 a) (Maj a b c) in
      [add32 t1 t2; a; b; c; add32 d t1; e; f; g]
  | _ => s
  end.

Definition compress (h : list Z) (block : list Z) : list Z :=
  let m := map be_word (chunks 4 16 block) in
  let w := rev (schedule 48 (rev m)) in
  zip_with add32 h (fold_left round (zip K w) h).

Definition hash_words (msg : list Z) : list Z :=
  let p := pad msg in
  fold_left compress (chunks 64 (length p) p) H0.

(** The digest read as one big-endian number. *)
Definition hash_num (msg : list Z) : Z :=
  fold_left (fun acc w => acc * 2 ^ 32 + w) (hash_words msg) 0.

Definition hex_of (digits : nat) (x : Z) : string :=
  string_of_list_ascii
    (map (fun i => hex_digit (Z.to_nat (Z.shiftr x (4 * Z.of_nat i) mod 16)))
         (rev (seq 0 digits))).

(** [hashlib.sha256(msg).hexdigest()] *)
Definition hexdigest (msg : list Z) : string := hex_of 64 (hash_num msg).

End SHA256.

(** [ProfileSync.get_profile_hash] *)
Definition get_profile_hash (profile_data : json) : string :=
  let profile_str := dumps profile_data in
  SHA256.hexdigest (encode profile_str).

Arguments get_profile_hash : simpl never.


(** ** Python comparisons on JSON values *)

Definition as_number (v : json) : option Z :=
  match v with
  | JInt n => Some n
  | JBool b => Some (if b then 1 else 0)
  | _ => None
  end.

(** [a == b] *)
Fixpoint py_eq (a b : json) : bool :=
  match a, b with
  | JNull, JNull => true
  | JStr s, JStr t => String.eqb s t
  | JList l, JList l' =>
      (fix go (l l' : list json) : bool :=
         match l, l' with
         | [], [] => true
         | x :: l, y :: l' => py_eq x y && go l l'
         | _, _ => false
         end) l l'
  | JDict d, JDict d' =>
      (length d =? length d')%nat
      && forallb (fun kv => match dict_get kv.1 d' with
                            | Some v' => py_eq kv.2 v'
                            | None => false
                            end) d
  | _, _ =>
      match as_number a, as_number b with
      | Some m, Some n => m =? n
      | _, _ => false
      end
  end.

(** [a > b]; [None] when Python raises [TypeError]. *)
Fixpoint py_gt (a b : json) : option bool :=
  match a, b with
  | JStr s, JStr t => Some (String.ltb t s)
  | JList l, JList l' =>
      (fix go (l l' : list json) : option bool :=
         match l, l' with
         | x :: l, y :: l' => if py_eq x y then go l l' else py_gt x y
         | _ :: _, [] => Some true
         | [], _ => Some false
         end) l l'
  | _, _ =>
      match as_number a, as_number b with
      | Some m, Some n => Some (n <? m)
      | _, _ => None
      end
  end.

(** [l[start:]] *)
Definition slice_from {A} (start : Z) (l : list A) : list A :=
  let n := Z.of_nat (length l) in
  let i := if start <? 0 then Z.max (n + start) 0 else Z.min start n in
  drop (Z.to_nat i) l.

(** ** The engine and the world it runs in *)

Record log_entry : Type := LogEntry {
  timestamp : string;
  level : string;
  message : string
}.

(** What a file of the profile directory holds: a JSON object, or
    something that makes [open] or [json.load] raise ([why] is the text
    of the exception).  The engine writes objects only; a file that
    holds other valid JSON (an array, a string, a number), which
    [json.load] would return as it is, is not part of these
    directories. *)
Inductive file : Type :=
| Holds (d : dict)
| Unreadable (why : string).

(** An instance of [ProfileSync] ([cloud_url], [sync_log]) with the
    directory [local_dir] (file name to content), the files that cannot
    be opened for writing (with the text of the exception) and the
    clock: [clock n] is the [n]-th reading of
    [datetime.now().isoformat()], [ticks] counts the readings made. *)
Record world : Type := World {
  cloud_url : option string;
  sync_log : list log_entry;
  files : gmap string file;
  write_fault : string -> option string;
  clock : nat -> string;
  ticks : nat
}.

Definition set_log (w : world) (l : list log_entry) : world :=
  World (cloud_url w) l (files w) (write_fault w) (clock w) (ticks w).

Definition set_files (w : world) (fs : gmap string file) : world :=
  World (cloud_url w) (sync_log w) fs (write_fault w) (clock w) (ticks w).

(** [datetime.now().isoformat()] *)
Definition now (w : world) : string * world :=
  (clock w (ticks w),
   World (cloud_url w) (sync_log w) (files w) (write_fault w) (clock w) (S (ticks w))).

(** [ProfileSync(local_dir, cloud_url)]: the log starts empty. *)
Definition ProfileSync (cloud_url : option string) (fs : gmap string file)
    (fault : string -> option string) (clock : nat -> string) (ticks : nat) : world :=
  World cloud_url [] fs fault clock ticks.

(** [if not self.cloud_url]: [None] and the empty string are false. *)
Definition cloud_enabled (w : world) : bool :=
  match cloud_url w with
  | Some (String _ _) => true
  | _ => false
  end.

(** The Python methods return a value or raise. *)
Inductive outcome (A : Type) : Type :=
| Returns (a : A)
| Raises (exn : string).
Arguments Returns {A} a.
Arguments Raises {A} exn.

Definition log_sync (message level : string) (w : world) : world :=
  let (t, w) := now w in
  let log_entry := LogEntry t level message in
  let log := sync_log w ++ [log_entry] in
  (* Keep only last 100 log entries *)
  set_log w (if (100 <? length log)%nat then slice_from (-100) log else log).

Definition get_sync_log (limit : Z) (w : world) : list log_entry :=
  slice_from (- limit) (sync_log w).

Definition local_path (profile_id : string) : string := profile_id +:+ ".json".
Definition cloud_path (profile_id : string) : string :=
  "cloud_" +:+ profile_id +:+ ".json".

Definition load_local_profile (profile_id : string) (w : world)
  : option dict * world :=
  match files w !! local_path profile_id with
  | Some (Holds profile) => (Some profile, w)
  | Some (Unreadable e) =>
      (None, log_sync ("Error loading local profile " +:+ profile_id +:+ ": " +:+ e)
                      "error" w)
  | None => (None, w)
  end.

(** The dictionary handed in is stamped in place: the second component
    is that dictionary after the call. *)
Definition save_local_profile (profile_id : string) (profile_data : dict) (w : world)
  : bool * dict * world :=
  let (t, w) := now w in
  let profile_data := dict_set "last_sync" (JStr t) profile_data in
  let profile_data :=
    dict_set "sync_hash" (JStr (get_profile_hash (JDict profile_data))) profile_data in
  match write_fault w (local_path profile_id) with
  | None =>
      let w := set_files w (<[local_path profile_id := Holds profile_data]> (files w)) in
      (true, profile_data, log_sync ("Saved local profile " +:+ profile_id) "success" w)
  | Some e =>
      (false, profile_data,
       log_sync ("Error saving local profile " +:+ profile_id +:+ ": " +:+ e) "error" w)
  end.

Definition fetch_cloud_profile (profile_id : string) (w : world)
  : option dict * world :=
  if negb (cloud_enabled w) then (None, w)
  else
    match files w !! cloud_path profile_id with
    | Some (Holds profile) =>
        (Some profile, log_sync ("Fetched cloud profile " +:+ profile_id) "success" w)
    | Some (Unreadable e) =>
        (None, log_sync ("Error fetching cloud profile " +:+ profile_id +:+ ": " +:+ e)
                        "error" w)
    | None => (None, w)
    end.

Definition push_cloud_profile (profile_id : string) (profile_data : dict) (w : world)
  : bool * dict * world :=
  if negb (cloud_enabled w) then (false, profile_data, w)
  else
    let (t, w) := now w in
    let profile_data := dict_set "last_cloud_sync" (JStr t) profile_data in
    match write_fault w (cloud_path profile_id) with
    | None =>
        let w := set_files w (<[cloud_path profile_id := Holds profile_data]> (files w)) in
        (true, profile_data,
         log_sync ("Pushed cloud profile " +:+ profile_id) "success" w)
    | Some e =>
        (false, profile_data,
         log_sync ("Error pushing cloud profile " +:+ profile_id +:+ ": " +:+ e) "error" w)
    end.

Definition epoch : string := "1970-01-01T00:00:00".

Definition resolve_conflict (local_profile cloud_profile : dict) (strategy : string)
    (w : world) : outcome dict * world :=
  if String.eqb strategy "newest" then
    let local_time := default (JStr epoch) (dict_get "last_sync" local_profile) in
    let cloud_time := default (JStr epoch) (dict_get "last_cloud_sync" cloud_profile) in
    match py_gt local_time cloud_time with
    | Some gt =>
        let winner := if gt then local_profile else cloud_profile in
        (Returns winner,
         log_sync ("Conflict resolved using newest (" +:+ strategy +:+ ")") "info" w)
    | None => (Raises "TypeError", w)
    end
  else if String.eqb strategy "local" then
    (Returns local_profile, log_sync "Conflict resolved using local version" "info" w)
  else if String.eqb strategy "cloud" then
    (Returns cloud_profile, log_sync "Conflict resolved using cloud version" "info" w)
  else if String.eqb strategy "merge" then
    let merged := dict_union local_profile cloud_profile in
    (Returns merged, log_sync "Conflict resolved using merge strategy" "info" w)
  else (Returns local_profile, w).

Record sync_result : Type := SyncResult {
  status : string;
  action : string;
  profile : option dict;
  strategy : option string
}.

Definition sync_profile (profile_id strategy : string) (w : world)
  : outcome sync_result * world :=
  let (local_profile, w) := load_local_profile profile_id w in
  let (cloud_profile, w) := fetch_cloud_profile profile_id w in
  match present local_profile, present cloud_profile with
  | Some local_profile, None =>
      (* Case 1: Only local exists *)
      let '(_, local_profile, w) := push_cloud_profile profile_id local_profile w in
      (Returns (SyncResult "synced" "uploaded_to_cloud" (Some local_profile) None), w)
  | None, Some cloud_profile =>
      (* Case 2: Only cloud exists *)
      let '(_, cloud_profile, w) := save_local_profile profile_id cloud_profile w in
      (Returns (SyncResult "synced" "downloaded_from_cloud" (Some cloud_profile) None), w)
  | Some local_profile, Some cloud_profile =>
      (* Case 3: Both exist - check for conflicts *)
      let local_hash := get_profile_hash (JDict local_profile) in
      let cloud_hash := get_profile_hash (JDict cloud_profile) in
      if String.eqb local_hash cloud_hash then
        (Returns (SyncResult "synced" "already_synced" (Some local_profile) None), w)
      else
        match resolve_conflict local_profile cloud_profile strategy w with
        | (Returns resolved, w) =>
            let '(_, resolved, w) := save_local_profile profile_id resolved w in
            let '(_, resolved, w) := push_cloud_profile profile_id resolved w in
            (Returns (SyncResult "synced" "conflict_resolved" (Some resolved)
                                 (Some strategy)), w)
        | (Raises e, w) => (Raises e, w)
        end
  | None, None =>
      (* Case 4: Neither exists *)
      (Returns (SyncResult "error" "profile_not_found" None None), w)
  end.

(** ** Documents that differ only in the order of their keys *)

Unset Elimination Schemes.
Inductive reordered : json -> json -> Prop :=
| reordered_same v : reordered v v
| reordered_list l l' :
    Forall2 reordered l l' -> reordered (JList l) (JList l')
| reordered_dict d d' d'' :
    d ≡ₚ d'' ->
    Forall2 (fun p q => p.1 = q.1 /\ reordered p.2 q.2) d'' d' ->
    reordered (JDict d) (JDict d').
Set Elimination Schemes.

(** ** Vocabulary of the digest properties *)



(** ** Vocabulary of the log properties *)

(** The [n] most recent elements of a list, oldest first. *)
Definition lastn {A} (n : nat) (l : list A) : list A := drop (length l - n) l.

(** A run of calls to [log_sync], each given as (message, level). *)
Definition log_all (calls : list (string * string)) (w : world) : world :=
  fold_left (fun w c => log_sync c.1 c.2 w) calls w.

(** The entries these calls create when the clock has been read [t]
    times before the first of them. *)
Fixpoint entries_from (clock : nat -> string) (t : nat) (calls : list (string * string))
  : list log_entry :=
  match calls with
  | [] => []
  | c :: calls' => LogEntry (clock t) c.2 c.1 :: entries_from clock (S t) calls'
  end.

Definition log_bounded (w : world) : Prop := (length (sync_log w) <= 100)%nat.

(** ** Vocabulary of the reconciliation properties *)

Definition result_status (o : outcome sync_result) : option string :=
  match o with Returns r => Some (status r) | Raises _ => None end.

Definition result_action (o : outcome sync_result) : option string :=
  match o with Returns r => Some (action r) | Raises _ => None end.

Definition result_profile (o : outcome sync_result) : option dict :=
  match o with Returns r => profile r | Raises _ => None end.

(** The document a replica file holds, if it holds one. *)
Definition stored (w : world) (path : string) : option dict :=
  match files w !! path with
  | Some (Holds d) => Some d
  | _ => None
  end.

(** ** Worlds used as concrete inputs *)

(** A clock whose readings grow with every call. *)
Definition demo_clock (n : nat) : string :=
  "2024-06-01T12:00:" +:+ String (hex_digit (n / 10)) (String (hex_digit (n mod 10)) "").

Definition hero : dict := [("name", JStr "Hero"); ("level", JInt 3)]%string.

Definition no_fault : string -> option string := fun _ => None.

(** [hero] is on the local replica only; a cloud URL is configured. *)
Definition w_local_only : world :=
  ProfileSync (Some "https://cloud.example"%string)
              {["hero.json"%string := Holds hero]} no_fault demo_clock 0.

(** The same directory, without a cloud URL. *)
Definition w_offline : world :=
  ProfileSync None {["hero.json"%string := Holds hero]} no_fault demo_clock 0.

(** The local replica holds the empty document; the remote one has
    nothing. *)
Definition w_empty_doc : world :=
  ProfileSync (Some "https://cloud.example"%string)
              {["hero.json"%string := Holds []]} no_fault demo_clock 0.

(** Two versions of one profile, as a conflict hands them to the
    resolution policy. *)
Definition hero_local : dict :=
  [("name", JStr "Hero"); ("stats", JDict [("hp", JInt 10); ("mp", JInt 5)]);
   ("last_sync", JStr "2024-01-01T00:00:00")]%string.

Definition hero_cloud : dict :=
  [("stats", JDict [("hp", JInt 7)]); ("guild", JStr "Owls");
   ("last_cloud_sync", JStr "2024-06-01T00:00:00")]%string.

(** One profile written with two key orders, at both nesting levels. *)
Definition hero_sheet : dict :=
  [("name", JStr "Hero"); ("stats", JDict [("hp", JInt 10); ("mp", JInt 5)])]%string.

Definition hero_sheet_shuffled : dict :=
  [("stats", JDict [("mp", JInt 5); ("hp", JInt 10)]); ("name", JStr "Hero")]%string.

(** ** [sync_all_profiles] *)

(** [s.startswith(p)] and [s.endswith(x)] *)
Definition startswith (p s : string) : bool := String.prefix p s.

Definition endswith (x s : string) : bool :=
  (String.length x <=? String.length s)%nat
  && String.eqb (String.substring (String.length s - String.length x)
                                  (String.length x) s) x.

(** [s.replace(old, new)] for a non-empty [old]: the occurrences of
    [old] are replaced from left to right, without overlap.  [skip]
    counts the characters of an occurrence still to be passed. *)
Fixpoint replace_from (old new : string) (skip : nat) (s : string) : string :=
  match s with
  | EmptyString => EmptyString
  | String c s' =>
      match skip with
      | S k => replace_from old new k s'
      | O =>
          if String.prefix old s
          then new +:+ replace_from old new (String.length old - 1) s'
          else String c (replace_from old new 0 s')
      end
  end.

Definition str_replace (old new s : string) : string := replace_from old new 0 s.

(** The profile ids [sync_all_profiles] draws from the names
    [os.listdir] returned. *)
Definition local_profile_ids (listing : list string) : list string :=
  map (str_replace ".json" "")
      (List.filter (fun f => endswith ".json" f && negb (startswith "cloud_" f)) listing).

(** The loop over the ids; a call that raises ends it. *)
Fixpoint sync_each (ids : list string) (strategy : string) (results : list sync_result)
    (w : world) : outcome (list sync_result) * world :=
  match ids with
  | [] => (Returns results, w)
  | profile_id :: ids' =>
      match sync_profile profile_id strategy w with
      | (Returns result, w) => sync_each ids' strategy (results ++ [result]) w
      | (Raises e, w) => (Raises e, w)
      end
  end.

(** [listing] is what [os.listdir(self.local_dir)] returns, in the
    order the operating system gives. *)
Definition sync_all_profiles (listing : list string) (strategy : string) (w : world)
  : outcome (list sync_result) * world :=
  let local_files := local_profile_ids listing in
  match sync_each local_files strategy [] w with
  | (Returns results, w) =>
      (Returns results,
       log_sync ("Synced " +:+ repr_int (Z.of_nat (length results)) +:+ " profiles")
                "info" w)
  | (Raises e, w) => (Raises e, w)
  end.

(** ** Vocabulary of the further properties *)

(** The levels the engine logs at. *)
Definition known_level (e : log_entry) : Prop :=
  level e = "info" \/ level e = "success" \/ level e = "error".

(** Every document of the directory has unique keys at every level. *)
Definition files_wf (w : world) : Prop :=
  forall path d, files w !! path = Some (Holds d) -> wf (JDict d).

(** No character of [s] is a dot. *)
Fixpoint dot_free (s : string) : bool :=
  match s with
  | EmptyString => true
  | String c s' => negb (Ascii.eqb c ".") && dot_free s'
  end.

(** The dictionary as [save_local_profile] leaves it when the clock
    reads [t], and as [push_cloud_profile] leaves it. *)
Definition saved_doc (t : string) (d : dict) : dict :=
  let d1 := dict_set "last_sync" (JStr t) d in
  dict_set "sync_hash" (JStr (get_profile_hash (JDict d1))) d1.

Definition pushed_doc (t : string) (d : dict) : dict :=
  dict_set "last_cloud_sync" (JStr t) d.

(** A directory with a document that cannot be read as the local
    replica of [hero] and a good remote copy. *)
Definition w_unreadable : world :=
  ProfileSync (Some "https://cloud.example")
              {["hero.json" := Unreadable "Expecting value: line 1 column 1 (char 0)";
                "cloud_hero.json" := Holds hero]} no_fault demo_clock 0.

(** A directory that refuses every write. *)
Definition w_readonly : world :=
  ProfileSync (Some "https://cloud.example")
              {["hero.json" := Holds hero]}
              (fun _ => Some "[Errno 13] Permission denied") demo_clock 0.

(** What the engine can do to the world while it works on files that
    satisfy [P]: read the clock, append a log entry at one of its three
    levels, write a document to a file that satisfies [P]. *)
Inductive reaches (P : string -> Prop) (w : world) : world -> Prop :=
| reaches_here : reaches P w w
| reaches_tick w' : reaches P w w' -> reaches P w (now w').2
| reaches_log w' m lv :
    lv ∈ ["info"; "success"; "error"] ->
    reaches P w w' -> reaches P w (log_sync m lv w')
| reaches_write w' path d :
    P path -> reaches P w w' ->
    reaches P w (set_files w' (<[path := Holds d]> (files w'))).

(** The two files of a profile. *)
Definition replica_of (profile_id : string) (path : string) : Prop :=
  path = local_path profile_id \/ path = cloud_path profile_id.

(** The local replica of [hero] carries a number where the engine
    writes a time; the remote replica carries a time. *)
Definition w_bad_stamp : world :=
  ProfileSync (Some "https://cloud.example")
              {["hero.json" := Holds [("name", JStr "Hero"); ("last_sync", JInt 5)];
                "cloud_hero.json" := Holds hero_cloud;
                "mage.json" := Holds [("name", JStr "Mage")]]}
              no_fault demo_clock 0.

(** The two replicas of [hero] hold different documents. *)
Definition w_conflict : world :=
  ProfileSync (Some "https://cloud.example")
              {["hero.json" := Holds hero_local; "cloud_hero.json" := Holds hero_cloud]}
              no_fault demo_clock 0.

(** The replicas of the profiles [ids]. *)
Definition replica_among (ids : list string) (path : string) : Prop :=
  exists profile_id, profile_id ∈ ids /\ replica_of profile_id path.

(** ** Checks of the serialisation and of the digest *)

Example sha256_abc :
  SHA256.hexdigest (encode "abc")
  = "ba7816bf8f01cfea414140de5dae2223b00361a396177a9cb410ff61f20015ad"%string.
Proof. vm_compute. reflexivity. Qed.

Example sha256_empty :
  SHA256.hexdigest []
  = "e3b0c44298fc1c149afbf4c8996fb92427ae41e4649b934ca495991b7852b855"%string.
Proof. vm_compute. reflexivity. Qed.

Example sha256_two_blocks :
  SHA256.hexdigest (repeat 97 119)
  = "31eba51c313a5c08226adf18d4a359cfdfd8d2e816b13f4af952f7ea6584dcfb"%string.
Proof. vm_compute. reflexivity. Qed.

Example sha256_pad_boundary :
  SHA256.hexdigest (repeat 97 56)
  = "b35439a4ac6f0948b6d6f9e3c6af0f5f590ce20f1bde7090ef7970686ec6738a"%string.
Proof. vm_compute. reflexivity. Qed.

Example dumps_hero :
  dumps (JDict [("name", JStr "Hero"); ("level", JInt 3)]%string)
  = String.concat "" ["{"; encode_str "level"; ": 3, "; encode_str "name"; ": ";
                      encode_str "Hero"; "}"]%string.
Proof. vm_compute. reflexivity. Qed.

Example hash_hero :
  get_profile_hash (JDict [("name", JStr "Hero"); ("level", JInt 3)]%string)
  = "31107866457f95d2c5c1873d88f51432b2dec95baece35dedb1e1c8ea5581f8e"%string.
Proof. vm_compute. reflexivity. Qed.

(** ** Dictionaries *)

Lemma dict_get_set (k k' : string) (v : json) (d : dict) :
  dict_get k (dict_set k' v d) = if String.eqb k k' then Some v else dict_get k d.
Proof.
  induction d as [|[k0 v0] d IH]; simpl.
  - reflexivity.
  - destruct (String.eqb_spec k' k0) as [->|Hne]; simpl.
    + destruct (String.eqb k k0); reflexivity.
    + rewrite IH.
      destruct (String.eqb_spec k k0), (String.eqb_spec k k'); congruence.
Qed.

Lemma dict_get_None (k : string) (d : dict) : k ∉ d.*1 -> dict_get k d = None.
Proof.
  induction d as [|[k0 v0] d IH]; simpl; intros Hk; [reflexivity|].
  destruct (String.eqb_spec k k0) as [->|?].
  - exfalso. apply Hk. left.
  - apply IH. intros ?. apply Hk. by right.
Qed.

Lemma dict_get_union (k : string) (l c : dict) :
  NoDup c.*1 ->
  dict_get k (dict_union l c)
  = match dict_get k c with Some v => Some v | None => dict_get k l end.
Proof.
  revert l. induction c as [|[k' v'] c IH]; intros l Hc; [reflexivity|].
  apply NoDup_cons in Hc as [Hk' Hc].
  change (dict_union l ((k', v') :: c)) with (dict_union (dict_set k' v' l) c).
  rewrite IH, dict_get_set by done. simpl.
  destruct (String.eqb_spec k k') as [->|?]; [|reflexivity].
  by rewrite dict_get_None.
Qed.

(** ** Slices and the log *)

Lemma slice_from_neg {A} (k : nat) (l : list A) :
  (0 < k)%nat -> slice_from (- Z.of_nat k) l = lastn k l.
Proof.
  intros Hk. unfold slice_from, lastn.
  destruct (Z.ltb_spec (- Z.of_nat k) 0); [|lia].
  f_equal. lia.
Qed.

Lemma lastn_all {A} (n : nat) (l : list A) : (length l <= n)%nat -> lastn n l = l.
Proof. intros H. unfold lastn. by replace (length l - n)%nat with 0%nat by lia. Qed.

Lemma length_lastn {A} (n : nat) (l : list A) :
  length (lastn n l) = Nat.min n (length l).
Proof. unfold lastn. rewrite length_drop. lia. Qed.

Lemma lastn_app_lastn {A} (n : nat) (a b : list A) :
  lastn n (lastn n a ++ b) = lastn n (a ++ b).
Proof.
  unfold lastn. rewrite !length_app, length_drop.
  rewrite <- (drop_app_le a b (length a - n)) by lia.
  rewrite drop_drop. f_equal. lia.
Qed.

Lemma sync_log_log_sync (m lv : string) (w : world) :
  sync_log (log_sync m lv w)
  = lastn 100 (sync_log w ++ [LogEntry (clock w (ticks w)) lv m]).
Proof.
  unfold log_sync, now, set_log. simpl.
  destruct (Nat.ltb_spec 100 (length (sync_log w ++ [LogEntry (clock w (ticks w)) lv m]))).
  - apply (slice_from_neg 100). lia.
  - by rewrite lastn_all.
Qed.

Lemma clock_log_sync (m lv : string) (w : world) :
  clock (log_sync m lv w) = clock w /\ ticks (log_sync m lv w) = S (ticks w).
Proof. by unfold log_sync, now, set_log. Qed.

Lemma length_log_sync (m lv : string) (w : world) :
  (length (sync_log (log_sync m lv w)) <= 100)%nat.
Proof. rewrite sync_log_log_sync, length_lastn. lia. Qed.

Lemma sync_log_log_all (calls : list (string * string)) (w : world) :
  (length (sync_log w) <= 100)%nat ->
  sync_log (log_all calls w)
  = lastn 100 (sync_log w ++ entries_from (clock w) (ticks w) calls).
Proof.
  revert w. induction calls as [|c calls IH]; intros w Hw; simpl.
  - by rewrite app_nil_r, lastn_all.
  - change (log_all (c :: calls) w) with (log_all calls (log_sync c.1 c.2 w)).
    rewrite IH by apply length_log_sync.
    destruct (clock_log_sync c.1 c.2 w) as [-> ->].
    rewrite sync_log_log_sync, lastn_app_lastn, <- app_assoc. reflexivity.
Qed.

Lemma length_entries_from (clock : nat -> string) (t : nat) (calls : list (string * string)) :
  length (entries_from clock t calls) = length calls.
Proof. revert t. induction calls; intros t; simpl; [done|]. by rewrite IHcalls. Qed.

(** ** Reading the log *)

(** C10: [get_sync_log 0] returns the whole stored log; for a positive
    [limit] the result is the suffix of the log that holds its
    [min limit (length log)] most recent entries, oldest first. *)
Theorem get_sync_log_limit (w : world) :
  get_sync_log 0 w = sync_log w
  /\ forall limit : Z, 0 < limit ->
       get_sync_log limit w = lastn (Z.to_nat limit) (sync_log w)
       /\ length (get_sync_log limit w)
          = Nat.min (Z.to_nat limit) (length (sync_log w))
       /\ exists older, sync_log w = older ++ get_sync_log limit w.
Proof.
  split.
  { unfold get_sync_log, slice_from. change (- 0) with 0.
    destruct (Z.ltb_spec 0 0); [lia|].
    assert (E : Z.to_nat (Z.min 0 (Z.of_nat (length (sync_log w)))) = 0%nat) by lia.
    rewrite E. reflexivity. }
  intros limit Hlimit.
  assert (Hget : get_sync_log limit w = lastn (Z.to_nat limit) (sync_log w)).
  { unfold get_sync_log. rewrite <- (Z2Nat.id limit) at 1 by lia.
    apply slice_from_neg. lia. }
  rewrite Hget. repeat split.
  - apply length_lastn.
  - exists (take (length (sync_log w) - Z.to_nat limit) (sync_log w)).
    unfold lastn. by rewrite take_drop.
Qed.

Lemma get_sync_log_limit_witness :
  get_sync_log 20 (log_all (replicate 30 ("Fetched cloud profile hero", "success"))
                           w_offline)
  = lastn 20 (sync_log (log_all (replicate 30 ("Fetched cloud profile hero", "success"))
                                w_offline)).
Proof.
  refine (proj1 (proj2 (get_sync_log_limit _) 20 _)). reflexivity.
Defined.

(** ** Conflict resolution *)

Lemma ltb_asym (s t : string) : String.ltb s t = true -> String.ltb t s = false.
Proof.
  unfold String.ltb. rewrite (String.compare_antisym t s).
  by destruct (String.compare s t).
Qed.

(** C3: with the strategy [newest], the policy reads [last_sync] of the
    local document and [last_cloud_sync] of the remote one, each
    replaced by [1970-01-01T00:00:00] when absent, compares the two
    strings and returns, whole, the document whose string is greater;
    with local [2024-01-01T00:00:00] and remote [2024-06-01T00:00:00]
    that is the remote document. *)
Theorem newest_returns_greater_timestamp
    (local_profile cloud_profile : dict) (local_time cloud_time : string) (w : world) :
  default (JStr epoch) (dict_get "last_sync" local_profile) = JStr local_time ->
  default (JStr epoch) (dict_get "last_cloud_sync" cloud_profile) = JStr cloud_time ->
  let resolved := (resolve_conflict local_profile cloud_profile "newest" w).1 in
  (String.ltb cloud_time local_time = true -> resolved = Returns local_profile)
  /\ (String.ltb local_time cloud_time = true -> resolved = Returns cloud_profile)
  /\ (local_time = "2024-01-01T00:00:00"%string ->
      cloud_time = "2024-06-01T00:00:00"%string ->
      resolved = Returns cloud_profile).
Proof.
  intros Hl Hc resolved.
  assert (Hres : resolved
                 = Returns (if String.ltb cloud_time local_time
                            then local_profile else cloud_profile)).
  { unfold resolved, resolve_conflict. simpl. rewrite Hl, Hc. simpl.
    by destruct (String.ltb cloud_time local_time). }
  rewrite Hres. repeat split.
  - by intros ->.
  - by intros ->%ltb_asym.
  - by intros -> ->.
Qed.

Lemma newest_returns_greater_timestamp_witness :
  (resolve_conflict hero_local hero_cloud "newest" w_offline).1 = Returns hero_cloud.
Proof.
  refine (proj2 (proj2 (newest_returns_greater_timestamp
                          hero_local hero_cloud "2024-01-01T00:00:00"
                          "2024-06-01T00:00:00" w_offline _ _)) _ _);
    reflexivity.
Defined.

(** C6: with the strategy [merge], the policy returns a document that
    binds exactly the keys of the two documents; a key of the remote
    document has the remote value, whatever the local document binds it
    to and whatever is nested in either value, and a key of the local
    document alone keeps the local value. *)
Theorem merge_is_shallow_union (local_profile cloud_profile : dict) (w : world) :
  NoDup cloud_profile.*1 ->
  exists merged,
    (resolve_conflict local_profile cloud_profile "merge" w).1 = Returns merged
    /\ forall k, dict_get k merged
                 = match dict_get k cloud_profile with
                   | Some v => Some v
                   | None => dict_get k local_profile
                   end.
Proof.
  intros Hc. exists (dict_union local_profile cloud_profile). split; [reflexivity|].
  intros k. by apply dict_get_union.
Qed.

Lemma merge_is_shallow_union_witness :
  exists merged,
    (resolve_conflict hero_local hero_cloud "merge" w_offline).1 = Returns merged
    /\ forall k, dict_get k merged
                 = match dict_get k hero_cloud with
                   | Some v => Some v
                   | None => dict_get k hero_local
                   end.
Proof.
  apply (merge_is_shallow_union hero_local hero_cloud w_offline).
  apply (bool_decide_unpack _). vm_compute. reflexivity.
Defined.

(** The nested [stats] of the local document is replaced, not merged. *)
Example merge_replaces_nested :
  (resolve_conflict hero_local hero_cloud "merge" w_offline).1
  = Returns [("name", JStr "Hero"); ("stats", JDict [("hp", JInt 7)]);
             ("last_sync", JStr "2024-01-01T00:00:00"); ("guild", JStr "Owls");
             ("last_cloud_sync", JStr "2024-06-01T00:00:00")]%string.
Proof. reflexivity. Qed.

(** C7: a strategy name outside [newest], [local], [cloud] and [merge]
    raises nothing and returns the local document as it is; the world
    is left as it was, so no log entry records the fallback. *)
Theorem unknown_strategy_returns_local_unlogged
    (local_profile cloud_profile : dict) (strategy : string) (w : world) :
  strategy <> "newest"%string -> strategy <> "local"%string ->
  strategy <> "cloud"%string -> strategy <> "merge"%string ->
  resolve_conflict local_profile cloud_profile strategy w = (Returns local_profile, w).
Proof.
  intros Hn Hl Hc Hm. unfold resolve_conflict.
  apply String.eqb_neq in Hn, Hl, Hc, Hm. by rewrite Hn, Hl, Hc, Hm.
Qed.

Lemma unknown_strategy_returns_local_unlogged_witness :
  resolve_conflict hero_local hero_cloud "oldest" w_offline = (Returns hero_local, w_offline)
  /\ sync_log (resolve_conflict hero_local hero_cloud "oldest" w_offline).2 = [].
Proof.
  assert (H : resolve_conflict hero_local hero_cloud "oldest" w_offline
              = (Returns hero_local, w_offline)).
  { apply unknown_strategy_returns_local_unlogged; discriminate. }
  split; [exact H | rewrite H; reflexivity].
Defined.

(** X21: under each of the four named strategies, a resolution that
    returns has appended one [info] entry to the log and changed
    nothing else. *)
Lemma known_strategy_logs (local_profile cloud_profile : dict) (strategy : string)
    (w : world) (resolved : dict) (w' : world) :
  strategy ∈ ["newest"; "local"; "cloud"; "merge"]%string ->
  resolve_conflict local_profile cloud_profile strategy w = (Returns resolved, w') ->
  exists m, w' = log_sync m "info" w.
Proof.
  intros Hs. unfold resolve_conflict.
  repeat (apply elem_of_cons in Hs as [->|Hs]); [..|by apply elem_of_nil in Hs]; simpl.
  - destruct (py_gt _ _); intros [= <- <-]; eauto.
  - intros [= <- <-]; eauto.
  - intros [= <- <-]; eauto.
  - intros [= <- <-]; eauto.
Qed.

(** ** Induction on JSON documents *)

Lemma json_ind (P : json -> Prop) :
  P JNull -> (forall b, P (JBool b)) -> (forall n, P (JInt n)) ->
  (forall s, P (JStr s)) ->
  (forall l, Forall P l -> P (JList l)) ->
  (forall d, Forall (fun kv => P kv.2) d -> P (JDict d)) ->
  forall v, P v.
Proof.
  intros Hnull Hbool Hint Hstr Hlist Hdict.
  fix IH 1. intros [ | b | n | s | l | d].
  - exact Hnull.
  - apply Hbool.
  - apply Hint.
  - apply Hstr.
  - apply Hlist. revert l. fix IHl 1. intros [|x l].
    + constructor.
    + constructor; [apply IH | apply IHl].
  - apply Hdict. revert d. fix IHd 1. intros [|[k x] d].
    + constructor.
    + constructor; [apply IH | apply IHd].
Qed.

(** ** The canonical serialisation does not depend on the key order *)

#[local] Instance key_le_trans : Transitive key_le.
Proof. intros p q r. unfold key_le. apply transitivity. Qed.

#[local] Instance key_le_total : Total key_le.
Proof. intros p q. unfold key_le. apply total, _. Qed.

Lemma NoDup_fst_eq {A} (l : list (string * A)) (p q : string * A) :
  NoDup l.*1 -> p ∈ l -> q ∈ l -> p.1 = q.1 -> p = q.
Proof.
  induction l as [|x l IH]; simpl; intros Hnd Hp Hq Hk.
  - by apply elem_of_nil in Hp.
  - apply NoDup_cons in Hnd as [Hx Hnd].
    apply elem_of_cons in Hp as [->|Hp], Hq as [->|Hq]; auto.
    + exfalso. apply Hx. rewrite Hk. by apply (list_elem_of_fmap_2 fst).
    + exfalso. apply Hx. rewrite <- Hk. by apply (list_elem_of_fmap_2 fst).
Qed.

Lemma sort_items_perm (l1 l2 : list (string * string)) :
  NoDup l1.*1 -> l1 ≡ₚ l2 -> sort_items l1 = sort_items l2.
Proof.
  intros Hnd Hperm. unfold sort_items.
  apply (Sorted_unique_strong key_le).
  - intros p q Hp Hq Hpq Hqp.
    rewrite merge_sort_Permutation in Hp, Hq. rewrite <- Hperm in Hq.
    apply (NoDup_fst_eq l1); [done..|].
    by apply (anti_symm String.le).
  - apply Sorted_merge_sort, _.
  - apply Sorted_merge_sort, _.
  - by rewrite !merge_sort_Permutation.
Qed.

Lemma wf_dict (d : dict) :
  wf (JDict d) <-> NoDup d.*1 /\ Forall (fun kv => wf kv.2) d.
Proof.
  simpl. rewrite andb_True, bool_decide_spec, forallb_True. reflexivity.
Qed.

Lemma wf_list (l : list json) : wf (JList l) <-> Forall (fun x => wf x) l.
Proof. simpl. by rewrite forallb_True. Qed.

Lemma dumps_reordered (a b : json) :
  reordered a b -> wf a -> wf b -> dumps a = dumps b.
Proof.
  revert b. induction a as [ | | | | l IH | d IH] using json_ind;
    intros b' Hr; inversion Hr as [ | ? l' Hl | ? d' d'' Hperm Hd]; subst; try done.
  - rewrite !wf_list. intros Hwl Hwl'. simpl.
    assert (map dumps l = map dumps l') as ->; [|done].
    clear Hr. induction Hl as [|x y l l' Hxy Hl IHl]; [done|].
    apply Forall_cons in IH as [IHx IH], Hwl as [Hx Hwl], Hwl' as [Hy Hwl'].
    simpl. f_equal; auto.
  - rewrite !wf_dict. intros [Hnd Hwd] [Hnd' Hwd']. simpl.
    assert (sort_items (map (fun kv => (kv.1, dumps kv.2)) d)
            = sort_items (map (fun kv => (kv.1, dumps kv.2)) d')) as ->; [|done].
    transitivity (sort_items (map (fun kv => (kv.1, dumps kv.2)) d'')).
    + apply sort_items_perm.
      * change (map (fun kv => (kv.1, dumps kv.2)) d).*1 with
          ((fun kv : string * json => (kv.1, dumps kv.2)) <$> d).*1.
        rewrite <- list_fmap_compose. exact Hnd.
      * by apply fmap_Permutation.
    + f_equal. rewrite Hperm in IH, Hwd. clear Hr Hperm Hnd Hnd'.
      induction Hd as [|p q l l' [Hk Hpq] Hd IHd]; [done|].
      apply Forall_cons in IH as [IHp IH], Hwd as [Hp Hwd], Hwd' as [Hq Hwd'].
      simpl. f_equal; [|auto]. rewrite Hk. f_equal. auto.
Qed.

(** ** The digest is a number below [2 ^ 256] *)










(** ** Distinct documents, distinct serialisations *)





(** ** The encoding of the serialisation loses nothing *)




(** ** The hexadecimal text of the digest loses nothing *)







(** ** The digest *)




Example digest_hero_sheet :
  get_profile_hash (JDict hero_sheet_shuffled)
  = "9d66c3382a496fdc081a4faf4536d8e15825cfda72e3a7153dba869ac85573d5".
Proof. vm_compute. reflexivity. Qed.

Lemma get_profile_hash_dumps (a b : json) :
  dumps a = dumps b -> get_profile_hash a = get_profile_hash b.
Proof. intros E. unfold get_profile_hash. by rewrite E. Qed.

(** ** What the operations leave untouched *)

#[local] Opaque get_profile_hash.

Lemma log_sync_frame (m lv : string) (w : world) :
  files (log_sync m lv w) = files w
  /\ cloud_url (log_sync m lv w) = cloud_url w
  /\ write_fault (log_sync m lv w) = write_fault w.
Proof. by unfold log_sync, now, set_log. Qed.

Lemma length_append (s t : string) :
  String.length (s +:+ t) = (String.length s + String.length t)%nat.
Proof. induction s as [|c s IH]; simpl; [done|]. by rewrite IH. Qed.

(** The two replicas of a profile are different files. *)
Lemma cloud_path_local_path (profile_id : string) :
  cloud_path profile_id <> local_path profile_id.
Proof.
  intros E. apply (f_equal String.length) in E.
  unfold cloud_path, local_path in E. rewrite !length_append in E.
  simpl in E. lia.
Qed.

Lemma present_Some (d : dict) : d <> [] -> present (Some d) = Some d.
Proof. by destruct d. Qed.

Lemma load_local_profile_holds (profile_id : string) (w : world) (d : dict) :
  files w !! local_path profile_id = Some (Holds d) ->
  load_local_profile profile_id w = (Some d, w).
Proof. intros H. unfold load_local_profile. by rewrite H. Qed.

Lemma fetch_cloud_profile_disabled (profile_id : string) (w : world) :
  cloud_enabled w = false -> fetch_cloud_profile profile_id w = (None, w).
Proof. intros H. unfold fetch_cloud_profile. by rewrite H. Qed.

Lemma push_cloud_profile_disabled (profile_id : string) (d : dict) (w : world) :
  cloud_enabled w = false -> push_cloud_profile profile_id d w = (false, d, w).
Proof. intros H. unfold push_cloud_profile. by rewrite H. Qed.

Lemma fetch_cloud_profile_frame (profile_id : string) (w : world) :
  files (fetch_cloud_profile profile_id w).2 = files w
  /\ cloud_url (fetch_cloud_profile profile_id w).2 = cloud_url w
  /\ write_fault (fetch_cloud_profile profile_id w).2 = write_fault w.
Proof.
  unfold fetch_cloud_profile. destruct (cloud_enabled w); simpl; [|done].
  destruct (files w !! cloud_path profile_id) as [[d|e]|]; simpl;
    try apply log_sync_frame; done.
Qed.

Lemma push_cloud_profile_fault (profile_id : string) (d : dict) (w : world) (e : string) :
  write_fault w (cloud_path profile_id) = Some e ->
  (push_cloud_profile profile_id d w).1.1 = false
  /\ files (push_cloud_profile profile_id d w).2 = files w.
Proof.
  intros He. unfold push_cloud_profile. destruct (cloud_enabled w); simpl; [|done].
  rewrite He. by simpl.
Qed.

(** ** The log stays bounded under every operation *)

Lemma load_local_profile_bounded (profile_id : string) (w : world) :
  log_bounded w -> log_bounded (load_local_profile profile_id w).2.
Proof.
  intros Hw. unfold load_local_profile.
  destruct (files w !! local_path profile_id) as [[d|e]|]; simpl; try done.
  apply length_log_sync.
Qed.

Lemma fetch_cloud_profile_bounded (profile_id : string) (w : world) :
  log_bounded w -> log_bounded (fetch_cloud_profile profile_id w).2.
Proof.
  intros Hw. unfold fetch_cloud_profile.
  destruct (cloud_enabled w); simpl; [|done].
  destruct (files w !! cloud_path profile_id) as [[d|e]|]; simpl; try done;
    apply length_log_sync.
Qed.

Lemma save_local_profile_bounded (profile_id : string) (d : dict) (w : world) :
  log_bounded (save_local_profile profile_id d w).2.
Proof.
  unfold save_local_profile, now. simpl.
  destruct (write_fault w (local_path profile_id)); apply length_log_sync.
Qed.

Lemma push_cloud_profile_bounded (profile_id : string) (d : dict) (w : world) :
  log_bounded w -> log_bounded (push_cloud_profile profile_id d w).2.
Proof.
  intros Hw. unfold push_cloud_profile, now.
  destruct (cloud_enabled w); simpl; [|done].
  destruct (write_fault w (cloud_path profile_id)); apply length_log_sync.
Qed.

Lemma resolve_conflict_bounded (l c : dict) (strategy : string) (w : world) :
  log_bounded w -> log_bounded (resolve_conflict l c strategy w).2.
Proof.
  intros Hw. unfold resolve_conflict.
  repeat (case String.eqb; [try (case py_gt; [intros ?|]); simpl; try done;
                            apply length_log_sync|]).
  done.
Qed.

Lemma sync_profile_bounded (profile_id strategy : string) (w : world) :
  log_bounded w -> log_bounded (sync_profile profile_id strategy w).2.
Proof.
  intros Hw. unfold sync_profile.
  pose proof (load_local_profile_bounded profile_id w Hw) as H1.
  destruct (load_local_profile profile_id w) as [l w1]. simpl in H1.
  pose proof (fetch_cloud_profile_bounded profile_id w1 H1) as H2.
  destruct (fetch_cloud_profile profile_id w1) as [c w2]. simpl in H2.
  destruct (present l) as [l'|], (present c) as [c'|].
  - destruct (String.eqb _ _); [exact H2|].
    pose proof (resolve_conflict_bounded l' c' strategy w2 H2) as H3.
    destruct (resolve_conflict l' c' strategy w2) as [[r|e] w3]; [|exact H3].
    pose proof (save_local_profile_bounded profile_id r w3) as H4.
    destruct (save_local_profile profile_id r w3) as [[ok r1] w4].
    pose proof (push_cloud_profile_bounded profile_id r1 w4 H4) as H5.
    destruct (push_cloud_profile profile_id r1 w4) as [[ok' r2] w5]. exact H5.
  - pose proof (push_cloud_profile_bounded profile_id l' w2 H2) as H3.
    destruct (push_cloud_profile profile_id l' w2) as [[ok r1] w3]. exact H3.
  - pose proof (save_local_profile_bounded profile_id c' w2) as H3.
    destruct (save_local_profile profile_id c' w2) as [[ok r1] w3]. exact H3.
  - exact H2.
Qed.

(** ** The local-only case *)

Lemma sync_profile_local_only (profile_id strategy : string) (w : world)
    (local_profile : dict) :
  files w !! local_path profile_id = Some (Holds local_profile) ->
  local_profile <> [] ->
  present (fetch_cloud_profile profile_id w).1 = None ->
  sync_profile profile_id strategy w
  = let w1 := (fetch_cloud_profile profile_id w).2 in
    let pushed := push_cloud_profile profile_id local_profile w1 in
    (Returns (SyncResult "synced" "uploaded_to_cloud" (Some pushed.1.2) None), pushed.2).
Proof.
  intros Hlocal Hne Hcloud. unfold sync_profile.
  rewrite (load_local_profile_holds _ _ _ Hlocal).
  destruct (fetch_cloud_profile profile_id w) as [c w1]. simpl in Hcloud.
  rewrite Hcloud, present_Some by done. cbv zeta. simpl snd.
  by destruct (push_cloud_profile profile_id local_profile w1) as [[ok d] w2].
Qed.

(** C1 fails as stated: after the upload of [hero] the remote replica
    holds a document whose digest differs from the digest of the local
    body, and it holds nothing at all when no cloud URL is set. *)
Lemma upload_is_not_digest_equal :
  (stored w_local_only (local_path "hero") = Some hero
   /\ stored w_local_only (cloud_path "hero") = None
   /\ let out := sync_profile "hero" "newest" w_local_only in
      result_action out.1 = Some "uploaded_to_cloud"
      /\ ~ (exists remote, stored out.2 (cloud_path "hero") = Some remote
                           /\ get_profile_hash (JDict remote)
                              = get_profile_hash (JDict hero)))
  /\ (stored w_offline (local_path "hero") = Some hero
      /\ stored w_offline (cloud_path "hero") = None
      /\ let out := sync_profile "hero" "newest" w_offline in
         result_action out.1 = Some "uploaded_to_cloud"
         /\ stored out.2 (cloud_path "hero") = None).
Proof.
  split; [|by vm_compute].
  split; [by vm_compute|]. split; [by vm_compute|]. split; [by vm_compute|].
  intros (remote & Hremote & Hhash).
  vm_compute in Hremote. injection Hremote as <-.
  vm_compute in Hhash. discriminate Hhash.
Qed.

(** C1, amended: when a non-empty profile is on the local replica only,
    a cloud URL is set and the cloud file can be written, [sync_profile]
    returns status [synced] and action [uploaded_to_cloud]; the remote
    replica then holds the local document with [last_cloud_sync] set to
    the time of the push, the returned profile is that same stamped
    document, which has the local value at every other key, and the
    local file is as it was. *)
Theorem local_only_is_uploaded (profile_id strategy : string) (w : world)
    (local_profile : dict) :
  stored w (local_path profile_id) = Some local_profile ->
  local_profile <> [] ->
  files w !! cloud_path profile_id = None ->
  cloud_enabled w = true ->
  write_fault w (cloud_path profile_id) = None ->
  let stamped := dict_set "last_cloud_sync" (JStr (clock w (ticks w))) local_profile in
  let out := sync_profile profile_id strategy w in
  out.1 = Returns (SyncResult "synced" "uploaded_to_cloud" (Some stamped) None)
  /\ stored out.2 (cloud_path profile_id) = Some stamped
  /\ stored out.2 (local_path profile_id) = Some local_profile
  /\ dict_get "last_cloud_sync" stamped = Some (JStr (clock w (ticks w)))
  /\ forall k, k <> "last_cloud_sync" -> dict_get k stamped = dict_get k local_profile.
Proof.
  intros Hlocal Hne Hcloud Hon Hw stamped out.
  assert (Hfile : files w !! local_path profile_id = Some (Holds local_profile)).
  { unfold stored in Hlocal.
    by destruct (files w !! local_path profile_id) as [[d|e]|]; simplify_eq. }
  assert (Hfetch : fetch_cloud_profile profile_id w = (None, w)).
  { unfold fetch_cloud_profile. by rewrite Hon, Hcloud. }
  assert (Hout : out = (Returns (SyncResult "synced" "uploaded_to_cloud" (Some stamped) None),
                        log_sync ("Pushed cloud profile " +:+ profile_id) "success"
                          (set_files (now w).2
                             (<[cloud_path profile_id := Holds stamped]> (files w))))).
  { unfold out. rewrite (sync_profile_local_only _ _ _ local_profile); [|done..|].
    - rewrite Hfetch. cbv zeta. cbn [fst snd].
      unfold push_cloud_profile. rewrite Hon. simpl. by rewrite Hw.
    - by rewrite Hfetch. }
  rewrite Hout. unfold stored. cbn [fst snd].
  rewrite (proj1 (log_sync_frame _ _ _)). simpl files. repeat split.
  - by rewrite lookup_insert_eq.
  - rewrite lookup_insert_ne by apply cloud_path_local_path. by rewrite Hfile.
  - unfold stamped. rewrite dict_get_set. reflexivity.
  - intros k Hk. unfold stamped. rewrite dict_get_set.
    apply String.eqb_neq in Hk. by rewrite Hk.
Qed.

Lemma local_only_is_uploaded_witness :
  let stamped := dict_set "last_cloud_sync" (JStr "2024-06-01T12:00:00") hero in
  let out := sync_profile "hero" "newest" w_local_only in
  out.1 = Returns (SyncResult "synced" "uploaded_to_cloud" (Some stamped) None)
  /\ stored out.2 (cloud_path "hero") = Some stamped
  /\ stored out.2 (local_path "hero") = Some hero
  /\ dict_get "last_cloud_sync" stamped = Some (JStr "2024-06-01T12:00:00")
  /\ forall k, k <> "last_cloud_sync" -> dict_get k stamped = dict_get k hero.
Proof.
  apply (local_only_is_uploaded "hero" "newest" w_local_only hero);
    [reflexivity | discriminate | reflexivity | reflexivity | reflexivity].
Defined.

(** C9: in the local-only case the value [push_cloud_profile] returns
    is not looked at: the result is [synced] / [uploaded_to_cloud] with
    the dictionary as the push left it, whether the push wrote the
    remote replica or not.  Without a cloud URL the push returns
    [False] and the world, remote replica included, is as before the
    call; when the cloud file cannot be written the push returns
    [False] and no file has changed. *)
Theorem upload_reported_whatever_push_returns (profile_id strategy : string)
    (w : world) (local_profile : dict) :
  files w !! local_path profile_id = Some (Holds local_profile) ->
  local_profile <> [] ->
  present (fetch_cloud_profile profile_id w).1 = None ->
  let w1 := (fetch_cloud_profile profile_id w).2 in
  let pushed := push_cloud_profile profile_id local_profile w1 in
  let out := sync_profile profile_id strategy w in
  out = (Returns (SyncResult "synced" "uploaded_to_cloud" (Some pushed.1.2) None),
         pushed.2)
  /\ (cloud_enabled w = false ->
      pushed.1.1 = false /\ pushed.1.2 = local_profile /\ out.2 = w)
  /\ (write_fault w (cloud_path profile_id) <> None ->
      pushed.1.1 = false /\ files out.2 = files w).
Proof.
  intros Hlocal Hne Hcloud w1 pushed out.
  assert (Hout : out = (Returns (SyncResult "synced" "uploaded_to_cloud"
                                            (Some pushed.1.2) None), pushed.2)).
  { by apply sync_profile_local_only. }
  split; [exact Hout|]. rewrite Hout. simpl snd. split.
  - intros Hoff. unfold pushed, w1.
    rewrite (fetch_cloud_profile_disabled _ _ Hoff). simpl snd.
    by rewrite (push_cloud_profile_disabled _ _ _ Hoff).
  - intros Hfault.
    destruct (write_fault w (cloud_path profile_id)) as [e|] eqn:He; [|done].
    destruct (fetch_cloud_profile_frame profile_id w) as (Hf & _ & Hwf).
    fold w1 in Hf, Hwf. rewrite <- Hwf in He.
    destruct (push_cloud_profile_fault profile_id local_profile w1 e He) as [Hp Hfs].
    fold pushed in Hp, Hfs. split; [exact Hp|]. by rewrite Hfs.
Qed.

Lemma upload_reported_whatever_push_returns_witness :
  sync_profile "hero" "newest" w_offline
  = (Returns (SyncResult "synced" "uploaded_to_cloud" (Some hero) None), w_offline).
Proof.
  exact (proj1 (upload_reported_whatever_push_returns
                  "hero" "newest" w_offline hero eq_refl
                  ltac:(discriminate) eq_refl)).
Defined.

(** ** The four cases *)

(** X19: when neither file of the profile exists, [sync_profile]
    answers [error] / [profile_not_found] with no profile, and the
    world is as before: nothing is written and nothing is logged. *)
Lemma absent_profile_not_found (profile_id strategy : string) (w : world) :
  files w !! local_path profile_id = None ->
  files w !! cloud_path profile_id = None ->
  sync_profile profile_id strategy w
  = (Returns (SyncResult "error" "profile_not_found" None None), w).
Proof.
  intros Hl Hc. unfold sync_profile, load_local_profile, fetch_cloud_profile.
  rewrite Hl. destruct (cloud_enabled w); simpl; by rewrite ?Hc.
Qed.

(** X20: whenever [sync_profile] returns, the status is [error]
    exactly in the fourth case, where neither read gave a non-empty
    document, with action [profile_not_found] and no profile; in every
    other case the status is [synced], the action is one of the four
    others and a read gave a non-empty document. *)
Lemma sync_profile_status (profile_id strategy : string) (w : world)
    (r : sync_result) (w' : world) :
  sync_profile profile_id strategy w = (Returns r, w') ->
  let loaded := load_local_profile profile_id w in
  let fetched := fetch_cloud_profile profile_id loaded.2 in
  (status r = "error" /\ action r = "profile_not_found" /\ profile r = None
   /\ present loaded.1 = None /\ present fetched.1 = None)
  \/ (status r = "synced"
      /\ action r ∈ ["uploaded_to_cloud"; "downloaded_from_cloud";
                     "already_synced"; "conflict_resolved"]
      /\ (is_Some (present loaded.1) \/ is_Some (present fetched.1))).
Proof.
  cbv zeta. unfold sync_profile.
  destruct (load_local_profile profile_id w) as [l w1]. cbn [fst snd].
  destruct (fetch_cloud_profile profile_id w1) as [c w2]. cbn [fst snd].
  destruct (present l) as [l'|], (present c) as [c'|].
  - destruct (String.eqb _ _).
    + intros [= <- <-]. right. cbn [status action]. set_solver.
    + destruct (resolve_conflict l' c' strategy w2) as [[res|e] w3]; [|done].
      destruct (save_local_profile profile_id res w3) as [[ok r1] w4].
      destruct (push_cloud_profile profile_id r1 w4) as [[ok' r2] w5].
      intros [= <- <-]. right. cbn [status action]. set_solver.
  - destruct (push_cloud_profile profile_id l' w2) as [[ok r1] w3].
    intros [= <- <-]. right. cbn [status action]. set_solver.
  - destruct (save_local_profile profile_id c' w2) as [[ok r1] w3].
    intros [= <- <-]. right. cbn [status action]. set_solver.
  - intros [= <- <-]. left. done.
Qed.

(** C4, at the failing input: the local replica holds the profile
    [hero] as an empty document and the remote replica holds nothing,
    yet [sync_profile] answers [error] / [profile_not_found] and
    uploads nothing. *)
Theorem empty_document_is_reported_missing :
  stored w_empty_doc (local_path "hero") = Some []
  /\ stored w_empty_doc (cloud_path "hero") = None
  /\ sync_profile "hero" "newest" w_empty_doc
     = (Returns (SyncResult "error" "profile_not_found" None None), w_empty_doc).
Proof. by vm_compute. Qed.

(** C2, at the failing input: [hero] is on the local replica only.  The
    first call uploads it; the second call, with nothing written in
    between, finds the two replicas different and reports
    [conflict_resolved] under each of the four strategies, and so does
    a third call; the digests of the two replicas still differ after
    it. *)
Theorem second_sync_finds_a_conflict :
  Forall (fun strategy =>
            let first := sync_profile "hero" strategy w_local_only in
            let second := sync_profile "hero" strategy first.2 in
            let third := sync_profile "hero" strategy second.2 in
            result_action first.1 = Some "uploaded_to_cloud"
            /\ result_action second.1 = Some "conflict_resolved"
            /\ result_action third.1 = Some "conflict_resolved"
            /\ (get_profile_hash <$> (JDict <$> stored third.2 (local_path "hero")))
               <> (get_profile_hash <$> (JDict <$> stored third.2 (cloud_path "hero"))))
         ["newest"; "local"; "cloud"; "merge"].
Proof.
  repeat first [apply Forall_nil_2 | apply Forall_cons_2];
    (split; [vm_compute; reflexivity|]);
    (split; [vm_compute; reflexivity|]);
    (split; [vm_compute; reflexivity|]);
    vm_compute; discriminate.
Qed.

(** ** The operation log *)

(** C8: the log of an engine never holds more than 100 entries; an
    append that would exceed 100 keeps the 100 most recent entries,
    oldest first; after any run of appends on a new engine the log is
    the 100 most recent of the entries created, in the order of
    creation, and after 150 appends [get_sync_log 1000] returns exactly
    these 100 entries, the 51st to the 150th; [sync_profile] keeps the
    log within 100 entries. *)
Theorem log_capped_at_100 :
  (forall (m lv : string) (w : world),
      sync_log (log_sync m lv w)
      = lastn 100 (sync_log w ++ [LogEntry (clock w (ticks w)) lv m])
      /\ (length (sync_log (log_sync m lv w)) <= 100)%nat)
  /\ (forall url fs fault clock t (calls : list (string * string)),
        let w := log_all calls (ProfileSync url fs fault clock t) in
        let created := entries_from clock t calls in
        (length (sync_log w) <= 100)%nat
        /\ sync_log w = lastn 100 created
        /\ get_sync_log 1000 w = lastn 100 created
        /\ (length calls = 150%nat ->
            get_sync_log 1000 w = drop 50 created
            /\ length (get_sync_log 1000 w) = 100%nat))
  /\ (forall (profile_id strategy : string) (w : world),
        log_bounded w -> log_bounded (sync_profile profile_id strategy w).2).
Proof.
  split; [|split; [|apply sync_profile_bounded]].
  - intros m lv w. split; [apply sync_log_log_sync | apply length_log_sync].
  - intros url fs fault clock t calls w created.
    assert (Hlog : sync_log w = lastn 100 created).
    { unfold w. rewrite sync_log_log_all by (simpl; lia). reflexivity. }
    assert (Hlen : (length (sync_log w) <= 100)%nat).
    { rewrite Hlog, length_lastn. lia. }
    assert (Hget : get_sync_log 1000 w = lastn 100 created).
    { unfold get_sync_log. rewrite (slice_from_neg 1000) by lia.
      rewrite lastn_all by lia. exact Hlog. }
    repeat split; try done.
    + rewrite Hget. unfold lastn, created.
      rewrite length_entries_from. by replace (length calls - 100)%nat with 50%nat by lia.
    + rewrite Hget, length_lastn. unfold created.
      rewrite length_entries_from. lia.
Qed.


Lemma log_capped_at_100_witness :
  let calls := replicate 150 ("Saved local profile hero", "success") in
  let w := log_all calls w_offline in
  get_sync_log 1000 w = drop 50 (entries_from demo_clock 0 calls)
  /\ length (get_sync_log 1000 w) = 100%nat.
Proof.
  intros calls w.
  exact (proj2 (proj2 (proj2 (proj1 (proj2 log_capped_at_100)
                                None {["hero.json" := Holds hero]} no_fault
                                demo_clock 0%nat calls)))
               eq_refl).
Defined.

(** ** Writing and reading back *)

Lemma save_local_profile_ok (profile_id : string) (d : dict) (w : world) :
  write_fault w (local_path profile_id) = None ->
  save_local_profile profile_id d w
  = (true, saved_doc (clock w (ticks w)) d,
     log_sync ("Saved local profile " +:+ profile_id) "success"
       (set_files (now w).2
          (<[local_path profile_id := Holds (saved_doc (clock w (ticks w)) d)]>
             (files w)))).
Proof.
  intros Hw. unfold save_local_profile, saved_doc, now. simpl. by rewrite Hw.
Qed.

Lemma save_local_profile_fault (profile_id : string) (d : dict) (w : world) (e : string) :
  write_fault w (local_path profile_id) = Some e ->
  save_local_profile profile_id d w
  = (false, saved_doc (clock w (ticks w)) d,
     log_sync ("Error saving local profile " +:+ profile_id +:+ ": " +:+ e) "error"
       (now w).2).
Proof.
  intros Hw. unfold save_local_profile, saved_doc, now. simpl. by rewrite Hw.
Qed.

Lemma push_cloud_profile_ok (profile_id : string) (d : dict) (w : world) :
  cloud_enabled w = true ->
  write_fault w (cloud_path profile_id) = None ->
  push_cloud_profile profile_id d w
  = (true, pushed_doc (clock w (ticks w)) d,
     log_sync ("Pushed cloud profile " +:+ profile_id) "success"
       (set_files (now w).2
          (<[cloud_path profile_id := Holds (pushed_doc (clock w (ticks w)) d)]>
             (files w)))).
Proof.
  intros Hon Hw. unfold push_cloud_profile, pushed_doc, now. rewrite Hon. simpl.
  by rewrite Hw.
Qed.

Lemma saved_doc_get (t : string) (d : dict) (k : string) :
  dict_get k (saved_doc t d)
  = if String.eqb k "sync_hash"
    then Some (JStr (get_profile_hash (JDict (dict_set "last_sync" (JStr t) d))))
    else if String.eqb k "last_sync" then Some (JStr t) else dict_get k d.
Proof. unfold saved_doc. cbv zeta. by rewrite !dict_get_set. Qed.

Lemma pushed_doc_get (t : string) (d : dict) (k : string) :
  dict_get k (pushed_doc t d)
  = if String.eqb k "last_cloud_sync" then Some (JStr t) else dict_get k d.
Proof. unfold pushed_doc. by rewrite dict_get_set. Qed.

Lemma files_log_sync (m lv : string) (w : world) : files (log_sync m lv w) = files w.
Proof. apply log_sync_frame. Qed.

Lemma cloud_enabled_log_sync (m lv : string) (w : world) :
  cloud_enabled (log_sync m lv w) = cloud_enabled w.
Proof. reflexivity. Qed.

(** X1: a save that can write the local file returns [True], and a
    load of the same profile right after it returns the dictionary as
    the save left it: the document handed in with [last_sync] set to
    the time of the save, [sync_hash] set to the digest of the document
    taken after [last_sync] was set, and every other key as before. *)
Theorem save_then_load (profile_id : string) (d : dict) (w : world) :
  write_fault w (local_path profile_id) = None ->
  let out := save_local_profile profile_id d w in
  let t := clock w (ticks w) in
  out.1.1 = true
  /\ load_local_profile profile_id out.2 = (Some out.1.2, out.2)
  /\ dict_get "last_sync" out.1.2 = Some (JStr t)
  /\ dict_get "sync_hash" out.1.2
     = Some (JStr (get_profile_hash (JDict (dict_set "last_sync" (JStr t) d))))
  /\ forall k, k <> "last_sync" -> k <> "sync_hash" ->
               dict_get k out.1.2 = dict_get k d.
Proof.
  intros Hw out t. unfold out. rewrite (save_local_profile_ok _ _ _ Hw).
  cbn [fst snd]. fold t. split; [done|]. split.
  - apply load_local_profile_holds. rewrite files_log_sync. simpl files.
    by rewrite lookup_insert_eq.
  - rewrite !saved_doc_get. simpl. repeat split; [done..|].
    intros k Hk1 Hk2. rewrite saved_doc_get.
    apply String.eqb_neq in Hk1, Hk2. by rewrite Hk1, Hk2.
Qed.

Lemma save_then_load_witness :
  let out := save_local_profile "hero" hero w_offline in
  out.1.1 = true /\ load_local_profile "hero" out.2 = (Some out.1.2, out.2).
Proof.
  pose proof (save_then_load "hero" hero w_offline eq_refl) as H.
  exact (conj (proj1 H) (proj1 (proj2 H))).
Defined.

(** X2: with a cloud URL set and a writable cloud file, a push returns
    [True] and a fetch of the same profile right after it returns the
    dictionary as the push left it: the document handed in with
    [last_cloud_sync] set to the time of the push and every other key
    as before. *)
Theorem push_then_fetch (profile_id : string) (d : dict) (w : world) :
  cloud_enabled w = true ->
  write_fault w (cloud_path profile_id) = None ->
  let out := push_cloud_profile profile_id d w in
  out.1.1 = true
  /\ (fetch_cloud_profile profile_id out.2).1 = Some out.1.2
  /\ dict_get "last_cloud_sync" out.1.2 = Some (JStr (clock w (ticks w)))
  /\ forall k, k <> "last_cloud_sync" -> dict_get k out.1.2 = dict_get k d.
Proof.
  intros Hon Hw out. unfold out. rewrite (push_cloud_profile_ok _ _ _ Hon Hw).
  cbn [fst snd]. split; [done|]. split.
  - unfold fetch_cloud_profile. rewrite cloud_enabled_log_sync.
    change (cloud_enabled (set_files _ _)) with (cloud_enabled w). rewrite Hon.
    rewrite files_log_sync. simpl files. by rewrite lookup_insert_eq.
  - rewrite pushed_doc_get. split; [done|].
    intros k Hk. rewrite pushed_doc_get. apply String.eqb_neq in Hk. by rewrite Hk.
Qed.

Lemma push_then_fetch_witness :
  let out := push_cloud_profile "hero" hero w_local_only in
  out.1.1 = true /\ (fetch_cloud_profile "hero" out.2).1 = Some out.1.2.
Proof.
  pose proof (push_then_fetch "hero" hero w_local_only eq_refl eq_refl) as H.
  exact (conj (proj1 H) (proj1 (proj2 H))).
Defined.

(** X3: a save that cannot open the local file returns [False], leaves
    every file as it was and appends one [error] entry that names the
    profile and carries the text of the exception; the dictionary
    handed in has been stamped all the same. *)
Theorem failed_save_changes_no_file (profile_id : string) (d : dict) (w : world)
    (e : string) :
  write_fault w (local_path profile_id) = Some e ->
  let out := save_local_profile profile_id d w in
  out.1.1 = false
  /\ files out.2 = files w
  /\ sync_log out.2
     = lastn 100 (sync_log w
                  ++ [LogEntry (clock w (S (ticks w))) "error"
                        ("Error saving local profile " +:+ profile_id +:+ ": " +:+ e)])
  /\ dict_get "last_sync" out.1.2 = Some (JStr (clock w (ticks w))).
Proof.
  intros Hw out. unfold out. rewrite (save_local_profile_fault _ _ _ _ Hw).
  cbn [fst snd]. split; [done|]. split; [by rewrite files_log_sync|]. split.
  - by rewrite sync_log_log_sync.
  - by rewrite saved_doc_get.
Qed.

Lemma failed_save_changes_no_file_witness :
  let out := save_local_profile "hero" hero w_readonly in
  out.1.1 = false /\ files out.2 = files w_readonly.
Proof.
  pose proof (failed_save_changes_no_file "hero" hero w_readonly
                "[Errno 13] Permission denied" eq_refl) as H.
  exact (conj (proj1 H) (proj1 (proj2 H))).
Defined.

(** ** The effects of the operations *)

Lemma reaches_trans (P : string -> Prop) (w1 w2 w3 : world) :
  reaches P w1 w2 -> reaches P w2 w3 -> reaches P w1 w3.
Proof. intros H12 H23. induction H23; by try constructor. Qed.

Lemma reaches_mono (P Q : string -> Prop) (w w' : world) :
  (forall p, P p -> Q p) -> reaches P w w' -> reaches Q w w'.
Proof. intros HPQ H. induction H; constructor; auto. Qed.

Lemma load_local_profile_reaches (P : string -> Prop) (profile_id : string) (w : world) :
  reaches P w (load_local_profile profile_id w).2.
Proof.
  unfold load_local_profile.
  destruct (files w !! local_path profile_id) as [[d|e]|]; cbn [snd];
    [apply reaches_here | | apply reaches_here].
  apply reaches_log; [set_solver|apply reaches_here].
Qed.

Lemma fetch_cloud_profile_reaches (P : string -> Prop) (profile_id : string) (w : world) :
  reaches P w (fetch_cloud_profile profile_id w).2.
Proof.
  unfold fetch_cloud_profile.
  destruct (cloud_enabled w); cbn [negb snd]; [|apply reaches_here].
  destruct (files w !! cloud_path profile_id) as [[d|e]|]; cbn [snd];
    [| |apply reaches_here];
    (apply reaches_log; [set_solver|apply reaches_here]).
Qed.

Lemma save_local_profile_reaches (P : string -> Prop) (profile_id : string) (d : dict)
    (w : world) :
  P (local_path profile_id) -> reaches P w (save_local_profile profile_id d w).2.
Proof.
  intros HP. destruct (write_fault w (local_path profile_id)) as [e|] eqn:Hw.
  - rewrite (save_local_profile_fault _ _ _ _ Hw). cbn [snd].
    apply reaches_log; [set_solver|]. apply reaches_tick, reaches_here.
  - rewrite (save_local_profile_ok _ _ _ Hw). cbn [snd].
    apply reaches_log; [set_solver|].
    apply (reaches_write P w (now w).2); [done|]. apply reaches_tick, reaches_here.
Qed.

Lemma push_cloud_profile_reaches (P : string -> Prop) (profile_id : string) (d : dict)
    (w : world) :
  P (cloud_path profile_id) -> reaches P w (push_cloud_profile profile_id d w).2.
Proof.
  intros HP. destruct (cloud_enabled w) eqn:Hon.
  - destruct (write_fault w (cloud_path profile_id)) as [e|] eqn:Hw.
    + unfold push_cloud_profile, now. rewrite Hon. simpl. rewrite Hw. cbn [snd].
      apply reaches_log; [set_solver|]. apply (reaches_tick P w w), reaches_here.
    + rewrite (push_cloud_profile_ok _ _ _ Hon Hw). cbn [snd].
      apply reaches_log; [set_solver|].
      apply (reaches_write P w (now w).2); [done|]. apply reaches_tick, reaches_here.
  - rewrite (push_cloud_profile_disabled _ _ _ Hon). constructor.
Qed.

Lemma resolve_conflict_reaches (P : string -> Prop) (l c : dict) (strategy : string)
    (w : world) :
  reaches P w (resolve_conflict l c strategy w).2.
Proof.
  assert (Hlog : forall m, reaches P w (log_sync m "info" w)).
  { intros m. apply reaches_log; [set_solver|apply reaches_here]. }
  unfold resolve_conflict.
  destruct (String.eqb strategy "newest").
  { destruct (py_gt _ _); cbn [snd]; [apply Hlog|apply reaches_here]. }
  destruct (String.eqb strategy "local"); [apply Hlog|].
  destruct (String.eqb strategy "cloud"); [apply Hlog|].
  destruct (String.eqb strategy "merge"); [apply Hlog|].
  apply reaches_here.
Qed.

Lemma sync_profile_reaches (profile_id strategy : string) (w : world) :
  reaches (replica_of profile_id) w (sync_profile profile_id strategy w).2.
Proof.
  unfold sync_profile.
  pose proof (load_local_profile_reaches (replica_of profile_id) profile_id w) as H1.
  destruct (load_local_profile profile_id w) as [l w1]. cbn [snd] in H1.
  pose proof (fetch_cloud_profile_reaches (replica_of profile_id) profile_id w1) as H2.
  destruct (fetch_cloud_profile profile_id w1) as [c w2]. cbn [snd] in H2.
  assert (H : reaches (replica_of profile_id) w w2) by by eapply reaches_trans.
  assert (Hl : replica_of profile_id (local_path profile_id)) by by left.
  assert (Hc : replica_of profile_id (cloud_path profile_id)) by by right.
  clear H1 H2.
  destruct (present l) as [l'|], (present c) as [c'|].
  - destruct (String.eqb _ _); [exact H|].
    pose proof (resolve_conflict_reaches (replica_of profile_id) l' c' strategy w2) as H3.
    destruct (resolve_conflict l' c' strategy w2) as [[r|e] w3]; cbn [snd] in H3;
      [|by eapply reaches_trans].
    pose proof (save_local_profile_reaches _ profile_id r w3 Hl) as H4.
    destruct (save_local_profile profile_id r w3) as [[ok r1] w4]. cbn [snd] in H4.
    pose proof (push_cloud_profile_reaches _ profile_id r1 w4 Hc) as H5.
    destruct (push_cloud_profile profile_id r1 w4) as [[ok' r2] w5]. cbn [snd] in *.
    eauto using reaches_trans.
  - pose proof (push_cloud_profile_reaches _ profile_id l' w2 Hc) as H3.
    destruct (push_cloud_profile profile_id l' w2) as [[ok r1] w3]. cbn [snd] in *.
    eauto using reaches_trans.
  - pose proof (save_local_profile_reaches _ profile_id c' w2 Hl) as H3.
    destruct (save_local_profile profile_id c' w2) as [[ok r1] w3]. cbn [snd] in *.
    eauto using reaches_trans.
  - exact H.
Qed.

(** What every reachable world keeps. *)

Lemma reaches_config (P : string -> Prop) (w w' : world) :
  reaches P w w' ->
  cloud_url w' = cloud_url w /\ write_fault w' = write_fault w
  /\ clock w' = clock w /\ (ticks w <= ticks w')%nat.
Proof.
  induction 1 as [|w' _ (?&?&?&?)|w' m lv _ _ (?&?&?&?)|w' path d _ _ (?&?&?&?)];
    simpl; repeat split; try done; lia.
Qed.

Lemma reaches_files (P : string -> Prop) (w w' : world) :
  reaches P w w' ->
  forall path,
    (~ P path -> files w' !! path = files w !! path)
    /\ (is_Some (files w !! path) -> is_Some (files w' !! path)).
Proof.
  induction 1 as [|w' _ IH|w' m lv _ _ IH|w' p d Hp _ IH]; intros path.
  - done.
  - apply IH.
  - rewrite files_log_sync. apply IH.
  - simpl files. destruct (IH path) as [IH1 IH2]. split.
    + intros Hn. rewrite lookup_insert_ne by (by intros ->). auto.
    + intros Hs. destruct (decide (p = path)) as [->|Hne].
      * rewrite lookup_insert_eq. eauto.
      * rewrite lookup_insert_ne by done. auto.
Qed.

Lemma reaches_levels (P : string -> Prop) (w w' : world) :
  reaches P w w' ->
  Forall known_level (sync_log w) -> Forall known_level (sync_log w').
Proof.
  induction 1 as [|w' _ IH|w' m lv Hlv _ IH|w' p d Hp _ IH]; intros Hw; auto.
  rewrite sync_log_log_sync. unfold lastn. apply Forall_drop, Forall_app.
  split; [auto|]. apply Forall_singleton. unfold known_level. cbn [level].
  repeat (apply elem_of_cons in Hlv as [->|Hlv]); auto.
  by apply elem_of_nil in Hlv.
Qed.

(** ** What a synchronisation touches *)

Lemma load_local_profile_files (profile_id : string) (w : world) :
  files (load_local_profile profile_id w).2 = files w.
Proof.
  unfold load_local_profile.
  by destruct (files w !! local_path profile_id) as [[d|e]|].
Qed.

Lemma cloud_enabled_config (w w' : world) :
  cloud_url w' = cloud_url w -> cloud_enabled w' = cloud_enabled w.
Proof. unfold cloud_enabled. by intros ->. Qed.

Lemma resolve_conflict_doc (l c : dict) (strategy : string) (w w' : world) :
  (resolve_conflict l c strategy w).1 = (resolve_conflict l c strategy w').1.
Proof.
  unfold resolve_conflict.
  repeat (destruct (String.eqb strategy _); [try destruct (py_gt _ _); reflexivity|]).
  reflexivity.
Qed.

Lemma resolve_conflict_raises (l c : dict) (strategy e : string) (w w' : world) :
  resolve_conflict l c strategy w = (Raises e, w') ->
  strategy = "newest" /\ e = "TypeError" /\ w' = w.
Proof.
  unfold resolve_conflict.
  destruct (String.eqb_spec strategy "newest") as [->|_].
  { destruct (py_gt _ _); [discriminate|]. by intros [= <- <-]. }
  repeat (destruct (String.eqb strategy _); [discriminate|]). discriminate.
Qed.

(** X4: [sync_profile] writes to no file other than the two replicas
    of the profile it is given, removes no file, and leaves the cloud
    URL of the engine as it was. *)
Theorem sync_touches_only_its_replicas (profile_id strategy : string) (w : world)
    (path : string) :
  let w' := (sync_profile profile_id strategy w).2 in
  (path <> local_path profile_id -> path <> cloud_path profile_id ->
   files w' !! path = files w !! path)
  /\ (is_Some (files w !! path) -> is_Some (files w' !! path))
  /\ cloud_url w' = cloud_url w.
Proof.
  intros w'. pose proof (sync_profile_reaches profile_id strategy w) as H.
  fold w' in H. destruct (reaches_files _ _ _ H path) as [H1 H2].
  split; [|split; [exact H2|apply (reaches_config _ _ _ H)]].
  intros Hl Hc. apply H1. by intros [?|?].
Qed.

Lemma sync_touches_only_its_replicas_witness :
  files (sync_profile "hero" "local" w_bad_stamp).2 !! "mage.json"
  = files w_bad_stamp !! "mage.json".
Proof.
  refine (proj1 (sync_touches_only_its_replicas "hero" "local" w_bad_stamp "mage.json")
            _ _); discriminate.
Defined.

(** X5: [sync_profile] and the operations it calls log at the levels
    [info], [success] and [error] only: a log whose entries have these
    levels has them still after a synchronisation. *)
Theorem sync_logs_at_known_levels (profile_id strategy : string) (w : world) :
  Forall known_level (sync_log w) ->
  Forall known_level (sync_log (sync_profile profile_id strategy w).2).
Proof. apply reaches_levels with (P := replica_of profile_id), sync_profile_reaches. Qed.

Lemma sync_logs_at_known_levels_witness :
  Forall known_level (sync_log (sync_profile "hero" "newest" w_local_only).2).
Proof. apply (sync_logs_at_known_levels "hero" "newest" w_local_only). constructor. Defined.

Lemma sync_profile_raises_inv (profile_id strategy : string) (w : world) (e : string) :
  (sync_profile profile_id strategy w).1 = Raises e ->
  strategy = "newest" /\ e = "TypeError"
  /\ files (sync_profile profile_id strategy w).2 = files w.
Proof.
  unfold sync_profile.
  pose proof (load_local_profile_files profile_id w) as H1.
  destruct (load_local_profile profile_id w) as [l w1]. cbn [snd] in H1.
  destruct (fetch_cloud_profile_frame profile_id w1) as (H2 & _).
  destruct (fetch_cloud_profile profile_id w1) as [c w2]. cbn [snd] in H2.
  destruct (present l) as [l'|], (present c) as [c'|].
  - destruct (String.eqb _ _); [discriminate|].
    destruct (resolve_conflict l' c' strategy w2) as [[r|e'] w3] eqn:Hr.
    + destruct (save_local_profile profile_id r w3) as [[ok r1] w4].
      destruct (push_cloud_profile profile_id r1 w4) as [[ok' r2] w5]. discriminate.
    + apply resolve_conflict_raises in Hr as (-> & -> & ->).
      cbn [fst snd]. intros [= <-]. by rewrite H2, H1.
  - destruct (push_cloud_profile profile_id l' w2) as [[ok r1] w3]. discriminate.
  - destruct (save_local_profile profile_id c' w2) as [[ok r1] w3]. discriminate.
  - discriminate.
Qed.

Lemma resolve_conflict_raises_iff (l c : dict) (strategy e : string) (w : world) :
  (resolve_conflict l c strategy w).1 = Raises e
  <-> strategy = "newest" /\ e = "TypeError"
      /\ py_gt (default (JStr epoch) (dict_get "last_sync" l))
               (default (JStr epoch) (dict_get "last_cloud_sync" c)) = None.
Proof.
  unfold resolve_conflict.
  destruct (String.eqb_spec strategy "newest") as [->|Hn].
  - destruct (py_gt _ _) as [gt|]; cbn [fst]; split.
    + discriminate.
    + by intros (_ & _ & ?).
    + by intros [= <-].
    + by intros (_ & -> & _).
  - repeat (destruct (String.eqb strategy _);
            [cbn [fst]; split; [discriminate|by intros (? & _)]|]).
    cbn [fst]. split; [discriminate|by intros (? & _)].
Qed.

Lemma sync_profile_raises_world (profile_id strategy : string) (w : world) (e : string) :
  (sync_profile profile_id strategy w).1 = Raises e ->
  (sync_profile profile_id strategy w).2
  = log_sync ("Fetched cloud profile " +:+ profile_id) "success" w.
Proof.
  unfold sync_profile, load_local_profile.
  destruct (files w !! local_path profile_id) as [[l|el]|].
  - unfold fetch_cloud_profile. destruct (cloud_enabled w); cbn [negb].
    + destruct (files w !! cloud_path profile_id) as [[c|ec]|].
      * destruct (present (Some l)) as [l'|], (present (Some c)) as [c'|].
        -- destruct (String.eqb _ _); [discriminate|].
           destruct (resolve_conflict l' c' strategy _) as [[r|e'] w3] eqn:Hr.
           ++ destruct (save_local_profile profile_id r w3) as [[ok r1] w4].
              destruct (push_cloud_profile profile_id r1 w4) as [[ok' r2] w5].
              discriminate.
           ++ apply resolve_conflict_raises in Hr as (_ & _ & ->). done.
        -- destruct (push_cloud_profile profile_id l' _) as [[ok r1] w3]. discriminate.
        -- destruct (save_local_profile profile_id c' _) as [[ok r1] w3]. discriminate.
        -- discriminate.
      * change (present None) with (@None dict).
        destruct (present (Some l)) as [l'|]; [|discriminate].
        destruct (push_cloud_profile profile_id l' _) as [[ok r1] w3]. discriminate.
      * change (present None) with (@None dict).
        destruct (present (Some l)) as [l'|]; [|discriminate].
        destruct (push_cloud_profile profile_id l' _) as [[ok r1] w3]. discriminate.
    + change (present None) with (@None dict).
      destruct (present (Some l)) as [l'|]; [|discriminate].
      destruct (push_cloud_profile profile_id l' _) as [[ok r1] w3]. discriminate.
  - destruct (fetch_cloud_profile profile_id _) as [c w2].
    change (present None) with (@None dict).
    destruct (present c) as [c'|]; [|discriminate].
    destruct (save_local_profile profile_id c' w2) as [[ok r1] w3]. discriminate.
  - destruct (fetch_cloud_profile profile_id _) as [c w2].
    change (present None) with (@None dict).
    destruct (present c) as [c'|]; [|discriminate].
    destruct (save_local_profile profile_id c' w2) as [[ok r1] w3]. discriminate.
Qed.

Lemma sync_profile_objects_raise (profile_id strategy : string) (w : world)
    (l c : dict) (e : string) :
  files w !! local_path profile_id = Some (Holds l) ->
  files w !! cloud_path profile_id = Some (Holds c) ->
  (sync_profile profile_id strategy w).1 = Raises e
  <-> cloud_enabled w = true /\ l <> [] /\ c <> []
      /\ get_profile_hash (JDict l) <> get_profile_hash (JDict c)
      /\ strategy = "newest" /\ e = "TypeError"
      /\ py_gt (default (JStr epoch) (dict_get "last_sync" l))
               (default (JStr epoch) (dict_get "last_cloud_sync" c)) = None.
Proof.
  intros Hl Hc. unfold sync_profile.
  rewrite (load_local_profile_holds _ _ _ Hl). unfold fetch_cloud_profile.
  destruct (cloud_enabled w); cbn [negb].
  2:{ change (present None) with (@None dict).
      destruct (present (Some l)) as [l'|].
      - destruct (push_cloud_profile profile_id l' w) as [[ok r1] w3]. cbn [fst].
        split; [discriminate|by intros (? & _)].
      - cbn [fst]. split; [discriminate|by intros (? & _)]. }
  rewrite Hc.
  destruct l as [|kl l].
  { change (present (Some [])) with (@None dict).
    destruct (present (Some c)) as [c'|].
    - destruct (save_local_profile profile_id c' _) as [[ok r1] w3]. cbn [fst].
      split; [discriminate|by intros (_ & ? & _)].
    - cbn [fst]. split; [discriminate|by intros (_ & ? & _)]. }
  destruct c as [|kc c].
  { change (present (Some [])) with (@None dict).
    rewrite present_Some by done.
    destruct (push_cloud_profile profile_id _ _) as [[ok r1] w3]. cbn [fst].
    split; [discriminate|by intros (_ & _ & ? & _)]. }
  rewrite !present_Some by done.
  destruct (String.eqb_spec (get_profile_hash (JDict (kl :: l)))
                            (get_profile_hash (JDict (kc :: c)))) as [Hh|Hh].
  { cbn [fst]. split; [discriminate|by intros (_ & _ & _ & ? & _)]. }
  pose proof (resolve_conflict_raises_iff (kl :: l) (kc :: c) strategy e
                (log_sync ("Fetched cloud profile " +:+ profile_id) "success" w)) as Hiff.
  destruct (resolve_conflict (kl :: l) (kc :: c) strategy _) as [[r|e'] w3].
  - destruct (save_local_profile profile_id r w3) as [[ok r1] w4].
    destruct (push_cloud_profile profile_id r1 w4) as [[ok' r2] w5].
    cbn [fst] in *. split; [discriminate|].
    intros (_ & _ & _ & _ & Hs & He & Hgt).
    by pose proof (proj2 Hiff (conj Hs (conj He Hgt))).
  - cbn [fst] in *. split.
    + intros [= ->]. destruct (proj1 Hiff eq_refl) as (Hs & He & Hgt). by repeat split.
    + intros (_ & _ & _ & _ & Hs & He & Hgt).
      by injection (proj2 Hiff (conj Hs (conj He Hgt))) as ->.
Qed.

(** X6: when the two replica files of a profile hold JSON objects,
    [sync_profile] raises in one situation only: the cloud URL is set,
    both objects are non-empty, their digests differ, the strategy is
    [newest] and the two time stamps ([last_sync] of the local object,
    [last_cloud_sync] of the remote one, each the epoch when absent)
    cannot be compared by [>]; the exception is then [TypeError].
    Under a strategy other than [newest] and [merge] it never raises.
    Whenever it raises, it has done nothing but log the fetch: no file
    has been written. *)
Theorem sync_raise_conditions (profile_id strategy : string) (w : world) :
  let out := sync_profile profile_id strategy w in
  (forall (l c : dict) (e : string),
      files w !! local_path profile_id = Some (Holds l) ->
      files w !! cloud_path profile_id = Some (Holds c) ->
      out.1 = Raises e
      <-> cloud_enabled w = true /\ l <> [] /\ c <> []
          /\ get_profile_hash (JDict l) <> get_profile_hash (JDict c)
          /\ strategy = "newest" /\ e = "TypeError"
          /\ py_gt (default (JStr epoch) (dict_get "last_sync" l))
                   (default (JStr epoch) (dict_get "last_cloud_sync" c)) = None)
  /\ (strategy <> "newest" -> strategy <> "merge" -> exists r, out.1 = Returns r)
  /\ (forall e : string,
         out.1 = Raises e ->
         out.2 = log_sync ("Fetched cloud profile " +:+ profile_id) "success" w
         /\ files out.2 = files w).
Proof.
  cbv zeta. split; [|split].
  - intros l c e. apply sync_profile_objects_raise.
  - intros Hn _.
    destruct (sync_profile profile_id strategy w).1 as [r|e] eqn:E; [by exists r|].
    by destruct (sync_profile_raises_inv _ _ _ _ E) as (? & _).
  - intros e E. split; [by apply sync_profile_raises_world with e|].
    by destruct (sync_profile_raises_inv _ _ _ _ E) as (_ & _ & ?).
Qed.

Lemma sync_raise_conditions_witness :
  (sync_profile "hero" "newest" w_bad_stamp).1 = Raises "TypeError"
  /\ files (sync_profile "hero" "newest" w_bad_stamp).2 = files w_bad_stamp
  /\ exists r, (sync_profile "hero" "local" w_bad_stamp).1 = Returns r.
Proof.
  assert (Hdiff : get_profile_hash (JDict [("name", JStr "Hero"); ("last_sync", JInt 5)])
                  <> get_profile_hash (JDict hero_cloud))
    by (vm_compute; discriminate).
  assert (H : (sync_profile "hero" "newest" w_bad_stamp).1 = Raises "TypeError").
  { apply (proj1 (sync_raise_conditions "hero" "newest" w_bad_stamp)
             [("name", JStr "Hero"); ("last_sync", JInt 5)] hero_cloud "TypeError"
             eq_refl eq_refl).
    split; [reflexivity|]. split; [discriminate|]. split; [discriminate|].
    split; [exact Hdiff|]. split; [reflexivity|]. split; reflexivity. }
  split; [exact H|]. split.
  - exact (proj2 (proj2 (proj2 (sync_raise_conditions "hero" "newest" w_bad_stamp))
                    "TypeError" H)).
  - apply (proj1 (proj2 (sync_raise_conditions "hero" "local" w_bad_stamp)));
      discriminate.
Defined.

(** X7: an engine without a cloud URL writes no file when it
    synchronises a profile, and its answer is [uploaded_to_cloud] or
    [profile_not_found]. *)
Theorem offline_sync_writes_nothing (profile_id strategy : string) (w : world) :
  cloud_enabled w = false ->
  let out := sync_profile profile_id strategy w in
  files out.2 = files w
  /\ (result_action out.1 = Some "uploaded_to_cloud"
      \/ result_action out.1 = Some "profile_not_found").
Proof.
  intros Hoff. cbv zeta. unfold sync_profile.
  pose proof (load_local_profile_files profile_id w) as H1.
  pose proof (load_local_profile_reaches (fun _ => True) profile_id w) as Hr.
  destruct (load_local_profile profile_id w) as [l w1]. cbn [snd] in H1, Hr.
  assert (Hoff1 : cloud_enabled w1 = false).
  { rewrite <- Hoff. apply cloud_enabled_config, (reaches_config _ _ _ Hr). }
  rewrite (fetch_cloud_profile_disabled _ _ Hoff1).
  change (present None) with (@None dict).
  destruct (present l) as [l'|].
  - rewrite (push_cloud_profile_disabled _ _ _ Hoff1). cbn [fst snd result_action action].
    auto.
  - cbn [fst snd result_action action]. auto.
Qed.

Lemma offline_sync_writes_nothing_witness :
  files (sync_profile "hero" "newest" w_offline).2 = files w_offline.
Proof. exact (proj1 (offline_sync_writes_nothing "hero" "newest" w_offline eq_refl)). Defined.

(** ** The remote-only case and the two cases with both replicas *)

(** X8: when the local read gives no document (no file, a file that
    cannot be read, or an empty document) while the remote replica
    holds a non-empty one and the local file can be written,
    [sync_profile] answers [synced] / [downloaded_from_cloud]; the
    local file then holds the remote document with [last_sync] and
    [sync_hash] added, the returned profile is that stamped document,
    every other key has the remote value, and the remote file is as it
    was. *)
Theorem remote_only_is_downloaded (profile_id strategy : string) (w : world) (c : dict) :
  present (load_local_profile profile_id w).1 = None ->
  cloud_enabled w = true ->
  files w !! cloud_path profile_id = Some (Holds c) ->
  c <> [] ->
  write_fault w (local_path profile_id) = None ->
  let out := sync_profile profile_id strategy w in
  exists saved,
    out.1 = Returns (SyncResult "synced" "downloaded_from_cloud" (Some saved) None)
    /\ stored out.2 (local_path profile_id) = Some saved
    /\ stored out.2 (cloud_path profile_id) = Some c
    /\ is_Some (dict_get "last_sync" saved)
    /\ is_Some (dict_get "sync_hash" saved)
    /\ forall k, k <> "last_sync" -> k <> "sync_hash" -> dict_get k saved = dict_get k c.
Proof.
  intros Hl Hon Hc Hne Hw. cbv zeta. unfold sync_profile.
  pose proof (load_local_profile_files profile_id w) as Hf1.
  pose proof (load_local_profile_reaches (fun _ => True) profile_id w) as Hr.
  destruct (load_local_profile profile_id w) as [l w1]. cbn [fst snd] in *.
  destruct (reaches_config _ _ _ Hr) as (Hu & Hwf & _).
  assert (Hon1 : cloud_enabled w1 = true).
  { rewrite <- Hon. by apply cloud_enabled_config. }
  unfold fetch_cloud_profile. rewrite Hon1, Hf1, Hc. cbn [negb].
  rewrite Hl, present_Some by done.
  set (w2 := log_sync ("Fetched cloud profile " +:+ profile_id) "success" w1).
  assert (Hw2 : write_fault w2 (local_path profile_id) = None).
  { unfold w2. rewrite (proj2 (proj2 (log_sync_frame _ _ _))). by rewrite Hwf. }
  rewrite (save_local_profile_ok _ _ _ Hw2).
  exists (saved_doc (clock w2 (ticks w2)) c). unfold stored. cbn [fst snd].
  rewrite files_log_sync. simpl files. split; [done|]. split.
  { by rewrite lookup_insert_eq. }
  split.
  { rewrite lookup_insert_ne by (intros E; symmetry in E; by apply cloud_path_local_path in E).
    by rewrite Hf1, Hc. }
  rewrite !saved_doc_get. cbn [String.eqb Ascii.eqb Bool.eqb]. repeat split; eauto.
  intros k Hk1 Hk2. rewrite saved_doc_get.
  apply String.eqb_neq in Hk1, Hk2. by rewrite Hk1, Hk2.
Qed.

Lemma remote_only_is_downloaded_witness :
  exists saved,
    (sync_profile "hero" "newest" w_unreadable).1
    = Returns (SyncResult "synced" "downloaded_from_cloud" (Some saved) None)
    /\ stored (sync_profile "hero" "newest" w_unreadable).2 (local_path "hero")
       = Some saved
    /\ forall k, k <> "last_sync" -> k <> "sync_hash" ->
                 dict_get k saved = dict_get k hero.
Proof.
  destruct (remote_only_is_downloaded "hero" "newest" w_unreadable hero
              eq_refl eq_refl eq_refl ltac:(discriminate) eq_refl)
    as (saved & H1 & H2 & _ & _ & _ & H3).
  exists saved. exact (conj H1 (conj H2 H3)).
Defined.

(** X9: when the two replicas hold non-empty documents that differ
    only in the order of their keys, [sync_profile] answers [synced] /
    [already_synced] with the local document, writes no file, and logs
    the fetch alone. *)
Theorem reordered_replicas_are_already_synced (profile_id strategy : string)
    (w : world) (l c : dict) :
  files w !! local_path profile_id = Some (Holds l) -> l <> [] ->
  cloud_enabled w = true ->
  files w !! cloud_path profile_id = Some (Holds c) -> c <> [] ->
  wf (JDict l) -> wf (JDict c) -> reordered (JDict l) (JDict c) ->
  sync_profile profile_id strategy w
  = (Returns (SyncResult "synced" "already_synced" (Some l) None),
     log_sync ("Fetched cloud profile " +:+ profile_id) "success" w).
Proof.
  intros Hl Hln Hon Hc Hcn Hwl Hwc Hr. unfold sync_profile.
  rewrite (load_local_profile_holds _ _ _ Hl).
  unfold fetch_cloud_profile. rewrite Hon, Hc. cbn [negb].
  rewrite !present_Some by done.
  rewrite (get_profile_hash_dumps (JDict l) (JDict c)) by by apply dumps_reordered.
  by rewrite String.eqb_refl.
Qed.

Lemma reordered_replicas_are_already_synced_witness :
  let w := ProfileSync (Some "https://cloud.example")
             {["hero.json" := Holds hero_sheet;
               "cloud_hero.json" := Holds hero_sheet_shuffled]}
             no_fault demo_clock 0 in
  result_action (sync_profile "hero" "newest" w).1 = Some "already_synced".
Proof.
  intros w.
  rewrite (reordered_replicas_are_already_synced "hero" "newest" w
             hero_sheet hero_sheet_shuffled); [reflexivity | reflexivity | discriminate
    | reflexivity | reflexivity | discriminate | exact I | exact I | ].
  apply (reordered_dict _ _ [("stats", JDict [("hp", JInt 10); ("mp", JInt 5)]);
                             ("name", JStr "Hero")]).
  - apply perm_swap.
  - repeat constructor.
    apply (reordered_dict _ _ [("mp", JInt 5); ("hp", JInt 10)]).
    + apply perm_swap.
    + repeat constructor.
Defined.

Lemma resolve_conflict_ticks (l c : dict) (strategy : string) (w : world) :
  (ticks w <= ticks (resolve_conflict l c strategy w).2 <= S (ticks w))%nat.
Proof.
  unfold resolve_conflict.
  repeat (destruct (String.eqb strategy _);
          [try destruct (py_gt _ _); cbn [snd]; simpl ticks; lia|]).
  cbn [snd]. lia.
Qed.

Lemma sync_profile_conflict (profile_id strategy : string) (w : world)
    (l c r : dict) :
  files w !! local_path profile_id = Some (Holds l) -> l <> [] ->
  cloud_enabled w = true ->
  files w !! cloud_path profile_id = Some (Holds c) -> c <> [] ->
  get_profile_hash (JDict l) <> get_profile_hash (JDict c) ->
  (resolve_conflict l c strategy w).1 = Returns r ->
  write_fault w (local_path profile_id) = None ->
  write_fault w (cloud_path profile_id) = None ->
  let out := sync_profile profile_id strategy w in
  exists (n : nat) (saved pushed : dict),
    (ticks w < n <= ticks w + 2)%nat
    /\ out.1 = Returns (SyncResult "synced" "conflict_resolved" (Some pushed)
                                   (Some strategy))
    /\ stored out.2 (local_path profile_id) = Some saved
    /\ stored out.2 (cloud_path profile_id) = Some pushed
    /\ dict_get "last_sync" saved = Some (JStr (clock w n))
    /\ dict_get "sync_hash" saved
       = Some (JStr (get_profile_hash
                       (JDict (dict_set "last_sync" (JStr (clock w n)) r))))
    /\ (forall k, k <> "last_sync" -> k <> "sync_hash" ->
                  dict_get k saved = dict_get k r)
    /\ dict_get "last_cloud_sync" pushed = Some (JStr (clock w (n + 2)))
    /\ (forall k, k <> "last_cloud_sync" -> dict_get k pushed = dict_get k saved).
Proof.
  intros Hl Hln Hon Hc Hcn Hdiff Hres Hwl Hwc. cbv zeta. unfold sync_profile.
  rewrite (load_local_profile_holds _ _ _ Hl).
  unfold fetch_cloud_profile. rewrite Hon, Hc. cbn [negb].
  rewrite !present_Some by done.
  apply String.eqb_neq in Hdiff. rewrite Hdiff.
  set (w2 := log_sync ("Fetched cloud profile " +:+ profile_id) "success" w).
  assert (H2 : reaches (fun _ => False) w w2).
  { apply reaches_log; [set_solver|apply reaches_here]. }
  assert (Ht2 : ticks w2 = S (ticks w)) by reflexivity.
  pose proof (resolve_conflict_reaches (fun _ => False) l c strategy w2) as H3.
  pose proof (resolve_conflict_ticks l c strategy w2) as Ht3.
  rewrite (resolve_conflict_doc l c strategy w w2) in Hres.
  destruct (resolve_conflict l c strategy w2) as [o w3]. cbn [fst snd] in Hres, H3, Ht3.
  subst o.
  pose proof (reaches_trans _ _ _ _ H2 H3) as H13.
  destruct (reaches_config _ _ _ H13) as (Hu3 & Hf3 & Hc3 & _).
  assert (Hw3 : write_fault w3 (local_path profile_id) = None) by by rewrite Hf3.
  rewrite (save_local_profile_ok _ _ _ Hw3).
  set (saved := saved_doc (clock w3 (ticks w3)) r).
  set (w4 := log_sync ("Saved local profile " +:+ profile_id) "success"
               (set_files (now w3).2
                  (<[local_path profile_id := Holds saved]> (files w3)))).
  assert (Hon4 : cloud_enabled w4 = true).
  { rewrite <- Hon. apply cloud_enabled_config. unfold w4. simpl. exact Hu3. }
  assert (Hw4 : write_fault w4 (cloud_path profile_id) = None).
  { unfold w4. simpl. by rewrite Hf3. }
  assert (Hc4 : clock w4 (ticks w4) = clock w (ticks w3 + 2)).
  { replace (ticks w3 + 2)%nat with (S (S (ticks w3))) by lia.
    rewrite <- Hc3. reflexivity. }
  rewrite (push_cloud_profile_ok _ _ _ Hon4 Hw4).
  exists (ticks w3), saved, (pushed_doc (clock w4 (ticks w4)) saved).
  unfold stored. cbn [fst snd]. rewrite files_log_sync. simpl files.
  split; [lia|]. split; [done|]. split.
  { rewrite lookup_insert_ne by apply cloud_path_local_path.
    by rewrite lookup_insert_eq. }
  split; [by rewrite lookup_insert_eq|]. split.
  { unfold saved. rewrite saved_doc_get, Hc3. reflexivity. }
  split.
  { unfold saved. rewrite saved_doc_get, Hc3. reflexivity. }
  split.
  { intros k Hk1 Hk2. unfold saved. rewrite saved_doc_get.
    apply String.eqb_neq in Hk1, Hk2. by rewrite Hk1, Hk2. }
  split.
  { rewrite pushed_doc_get, Hc4. reflexivity. }
  intros k Hk. rewrite pushed_doc_get. apply String.eqb_neq in Hk. by rewrite Hk.
Qed.

(** X10: when the two replicas hold non-empty documents with different
    digests, the policy returns a document [r] and both files can be
    written, [sync_profile] answers [synced] / [conflict_resolved] and
    records the strategy.  The local file then holds [r] with
    [last_sync] set to a reading [t] of the clock, the second or the
    third that the call makes, and [sync_hash] set to the digest of
    [r] with that [last_sync]; the remote file holds that local copy
    with [last_cloud_sync] set to the reading two after [t]; the
    returned profile is the remote copy, so the two replicas agree at
    every key but [last_cloud_sync]. *)
Theorem conflict_writes_both_replicas (profile_id strategy : string) (w : world)
    (l c r : dict) :
  files w !! local_path profile_id = Some (Holds l) -> l <> [] ->
  cloud_enabled w = true ->
  files w !! cloud_path profile_id = Some (Holds c) -> c <> [] ->
  get_profile_hash (JDict l) <> get_profile_hash (JDict c) ->
  (resolve_conflict l c strategy w).1 = Returns r ->
  write_fault w (local_path profile_id) = None ->
  write_fault w (cloud_path profile_id) = None ->
  let out := sync_profile profile_id strategy w in
  exists (n : nat) (saved pushed : dict),
    (ticks w < n <= ticks w + 2)%nat
    /\ out.1 = Returns (SyncResult "synced" "conflict_resolved" (Some pushed)
                                   (Some strategy))
    /\ stored out.2 (local_path profile_id) = Some saved
    /\ stored out.2 (cloud_path profile_id) = Some pushed
    /\ dict_get "last_sync" saved = Some (JStr (clock w n))
    /\ dict_get "sync_hash" saved
       = Some (JStr (get_profile_hash
                       (JDict (dict_set "last_sync" (JStr (clock w n)) r))))
    /\ (forall k, k <> "last_sync" -> k <> "sync_hash" ->
                  dict_get k saved = dict_get k r)
    /\ dict_get "last_cloud_sync" pushed = Some (JStr (clock w (n + 2)))
    /\ (forall k, k <> "last_cloud_sync" -> dict_get k pushed = dict_get k saved).
Proof. apply sync_profile_conflict. Qed.

Lemma conflict_writes_both_replicas_witness :
  let out := sync_profile "hero" "merge" w_conflict in
  exists (n : nat) (saved pushed : dict),
    result_action out.1 = Some "conflict_resolved"
    /\ stored out.2 (local_path "hero") = Some saved
    /\ stored out.2 (cloud_path "hero") = Some pushed
    /\ dict_get "last_sync" saved = Some (JStr (demo_clock n))
    /\ dict_get "sync_hash" saved
       = Some (JStr (get_profile_hash
                       (JDict (dict_set "last_sync" (JStr (demo_clock n))
                                        (dict_union hero_local hero_cloud)))))
    /\ dict_get "last_cloud_sync" pushed = Some (JStr (demo_clock (n + 2)))
    /\ forall k, k <> "last_cloud_sync" -> dict_get k pushed = dict_get k saved.
Proof.
  assert (Hdiff : get_profile_hash (JDict hero_local) <> get_profile_hash (JDict hero_cloud))
    by (vm_compute; discriminate).
  destruct (conflict_writes_both_replicas "hero" "merge" w_conflict hero_local hero_cloud
              (dict_union hero_local hero_cloud)
              eq_refl ltac:(discriminate) eq_refl eq_refl ltac:(discriminate)
              Hdiff eq_refl eq_refl eq_refl)
    as (n & saved & pushed & _ & H1 & H2 & H3 & H4 & H5 & _ & H6 & H7).
  exists n, saved, pushed. cbv zeta. rewrite H1.
  exact (conj eq_refl (conj H2 (conj H3 (conj H4 (conj H5 (conj H6 H7)))))).
Defined.

(** X22: in a conflict settled with the strategy [local], every key
    other than the three stamps has the local value on both replicas
    afterwards, whatever the remote replica held; with the strategy
    [cloud] it has the remote value on both. *)
Theorem local_and_cloud_strategies_propagate (profile_id strategy : string) (w : world)
    (l c : dict) :
  files w !! local_path profile_id = Some (Holds l) -> l <> [] ->
  cloud_enabled w = true ->
  files w !! cloud_path profile_id = Some (Holds c) -> c <> [] ->
  get_profile_hash (JDict l) <> get_profile_hash (JDict c) ->
  write_fault w (local_path profile_id) = None ->
  write_fault w (cloud_path profile_id) = None ->
  forall winner,
    (strategy = "local" /\ winner = l) \/ (strategy = "cloud" /\ winner = c) ->
    let out := sync_profile profile_id strategy w in
    exists saved pushed,
      stored out.2 (local_path profile_id) = Some saved
      /\ stored out.2 (cloud_path profile_id) = Some pushed
      /\ forall k, k <> "last_sync" -> k <> "sync_hash" -> k <> "last_cloud_sync" ->
                   dict_get k saved = dict_get k winner
                   /\ dict_get k pushed = dict_get k winner.
Proof.
  intros Hl Hln Hon Hc Hcn Hdiff Hwl Hwc winner Hwin.
  assert (Hres : (resolve_conflict l c strategy w).1 = Returns winner).
  { by destruct Hwin as [[-> ->]|[-> ->]]. }
  destruct (sync_profile_conflict profile_id strategy w l c winner
              Hl Hln Hon Hc Hcn Hdiff Hres Hwl Hwc)
    as (n & saved & pushed & _ & _ & H2 & H3 & _ & _ & H4 & _ & H5).
  exists saved, pushed. split; [done|]. split; [done|].
  intros k Hk1 Hk2 Hk3. rewrite H5, H4 by done. done.
Qed.

Lemma local_and_cloud_strategies_propagate_witness :
  let out := sync_profile "hero" "local" w_conflict in
  exists saved pushed,
    stored out.2 (local_path "hero") = Some saved
    /\ stored out.2 (cloud_path "hero") = Some pushed
    /\ dict_get "stats" pushed = dict_get "stats" hero_local.
Proof.
  assert (Hdiff : get_profile_hash (JDict hero_local) <> get_profile_hash (JDict hero_cloud))
    by (vm_compute; discriminate).
  destruct (local_and_cloud_strategies_propagate "hero" "local" w_conflict
              hero_local hero_cloud eq_refl ltac:(discriminate) eq_refl eq_refl
              ltac:(discriminate) Hdiff eq_refl eq_refl hero_local
              (or_introl (conj eq_refl eq_refl)))
    as (saved & pushed & H1 & H2 & H3).
  exists saved, pushed. split; [exact H1|]. split; [exact H2|].
  apply (H3 "stats"); discriminate.
Defined.

(** ** More on the resolution policy *)

Lemma ltb_irrefl (s : string) : String.ltb s s = false.
Proof.
  destruct (String.ltb s s) eqn:E; [|done].
  pose proof (ltb_asym _ _ E). congruence.
Qed.

(** X11: with the strategy [newest] a tie goes to the remote document:
    when the two time stamps are the same string, and in particular
    when neither document carries its time stamp, the policy returns
    the remote document. *)
Theorem newest_tie_returns_cloud (local_profile cloud_profile : dict) (w : world) :
  (forall t,
      default (JStr epoch) (dict_get "last_sync" local_profile) = JStr t ->
      default (JStr epoch) (dict_get "last_cloud_sync" cloud_profile) = JStr t ->
      (resolve_conflict local_profile cloud_profile "newest" w).1 = Returns cloud_profile)
  /\ (dict_get "last_sync" local_profile = None ->
      dict_get "last_cloud_sync" cloud_profile = None ->
      (resolve_conflict local_profile cloud_profile "newest" w).1 = Returns cloud_profile).
Proof.
  assert (Htie : forall t,
             default (JStr epoch) (dict_get "last_sync" local_profile) = JStr t ->
             default (JStr epoch) (dict_get "last_cloud_sync" cloud_profile) = JStr t ->
             (resolve_conflict local_profile cloud_profile "newest" w).1
             = Returns cloud_profile).
  { intros t Hl Hc. unfold resolve_conflict. simpl. rewrite Hl, Hc. simpl.
    by rewrite ltb_irrefl. }
  split; [exact Htie|].
  intros Hl Hc. apply (Htie epoch); [by rewrite Hl | by rewrite Hc].
Qed.

Lemma newest_tie_returns_cloud_witness :
  (resolve_conflict hero hero_sheet "newest" w_offline).1 = Returns hero_sheet.
Proof.
  exact (proj2 (newest_tie_returns_cloud hero hero_sheet w_offline) eq_refl eq_refl).
Defined.

Lemma dict_set_keys (k : string) (v : json) (d : dict) :
  (dict_set k v d).*1 = if decide (k ∈ d.*1) then d.*1 else d.*1 ++ [k].
Proof.
  induction d as [|[k0 v0] d IH].
  { rewrite decide_False by apply not_elem_of_nil. done. }
  cbn [dict_set]. destruct (String.eqb_spec k k0) as [->|Hne]; rewrite !fmap_cons; cbn [fst].
  - rewrite decide_True by left. done.
  - rewrite IH. destruct (decide (k ∈ d.*1)) as [Hin|Hout].
    + rewrite decide_True by (by right). done.
    + rewrite decide_False; [done|]. by intros [?|?]%elem_of_cons.
Qed.

Lemma filter_ext_elem {A} (P Q : A -> Prop)
    `{!forall x, Decision (P x)} `{!forall x, Decision (Q x)} (l : list A) :
  (forall x, x ∈ l -> (P x <-> Q x)) -> filter P l = filter Q l.
Proof.
  induction l as [|x l IH]; intros Hext; [done|].
  assert (Hx : P x <-> Q x) by (apply Hext; left).
  assert (Hl : filter P l = filter Q l) by (apply IH; intros y Hy; apply Hext; by right).
  destruct (decide (P x)) as [HP|HP].
  - rewrite !filter_cons_True by tauto. by rewrite Hl.
  - rewrite !filter_cons_False by tauto. done.
Qed.

Lemma dict_union_keys (l c : dict) :
  NoDup c.*1 ->
  (dict_union l c).*1 = l.*1 ++ filter (fun k => k ∉ l.*1) c.*1.
Proof.
  revert l. induction c as [|[k v] c IH]; intros l Hc.
  { cbn [dict_union fold_left fmap list_fmap]. rewrite filter_nil. by rewrite app_nil_r. }
  rewrite fmap_cons in Hc. cbn [fst] in Hc. apply NoDup_cons in Hc as [Hk Hc].
  change (dict_union l ((k, v) :: c)) with (dict_union (dict_set k v l) c).
  rewrite IH, dict_set_keys by done. rewrite fmap_cons. cbn [fst].
  destruct (decide (k ∈ l.*1)) as [Hin|Hout].
  - rewrite filter_cons_False by (intros H; by apply H). done.
  - rewrite filter_cons_True by done. rewrite <- app_assoc. cbn [app]. do 2 f_equal.
    apply filter_ext_elem. intros k' Hk'. rewrite elem_of_app, list_elem_of_singleton.
    split; [tauto|]. intros Hn [?| ->]; [tauto|]. done.
Qed.

(** X12: with the strategy [merge] the merged document lists the keys
    of the local document in their local order, followed by the keys
    that only the remote document has, in their remote order; no key
    appears twice. *)
Theorem merge_keeps_key_order (local_profile cloud_profile : dict) (w : world) :
  NoDup local_profile.*1 -> NoDup cloud_profile.*1 ->
  exists merged,
    (resolve_conflict local_profile cloud_profile "merge" w).1 = Returns merged
    /\ merged.*1
       = local_profile.*1 ++ filter (fun k => k ∉ local_profile.*1) cloud_profile.*1
    /\ NoDup merged.*1.
Proof.
  intros Hl Hc. exists (dict_union local_profile cloud_profile).
  split; [done|]. rewrite dict_union_keys by done. split; [done|].
  apply NoDup_app. split; [done|]. split.
  - intros k Hk [Hn _]%list_elem_of_filter. done.
  - by apply NoDup_filter.
Qed.

Lemma merge_keeps_key_order_witness :
  exists merged,
    (resolve_conflict hero_local hero_cloud "merge" w_offline).1 = Returns merged
    /\ merged.*1 = ["name"; "stats"; "last_sync"; "guild"; "last_cloud_sync"].
Proof.
  assert (Hl : NoDup hero_local.*1) by (apply (bool_decide_unpack _); vm_compute; reflexivity).
  assert (Hc : NoDup hero_cloud.*1) by (apply (bool_decide_unpack _); vm_compute; reflexivity).
  destruct (merge_keeps_key_order hero_local hero_cloud w_offline Hl Hc)
    as (merged & H1 & H2 & _).
  exists merged. split; [exact H1|]. rewrite H2. vm_compute. reflexivity.
Defined.

(** ** Reading the log with a negative limit *)

(** X13: for a negative [limit], [get_sync_log] does not return the
    most recent entries: it returns the log without its [- limit]
    oldest entries, and nothing when the log has no more than that. *)
Theorem get_sync_log_negative_limit (limit : Z) (w : world) :
  limit < 0 ->
  get_sync_log limit w = drop (Z.to_nat (- limit)) (sync_log w).
Proof.
  intros Hlimit. unfold get_sync_log, slice_from.
  destruct (Z.ltb_spec (- limit) 0); [lia|].
  destruct (Z.le_gt_cases (- limit) (Z.of_nat (length (sync_log w)))).
  - f_equal. lia.
  - rewrite !drop_ge by lia. done.
Qed.

Lemma get_sync_log_negative_limit_witness :
  get_sync_log (-25) (log_all (replicate 30 ("Fetched cloud profile hero", "success"))
                              w_offline)
  = drop 25 (sync_log (log_all (replicate 30 ("Fetched cloud profile hero", "success"))
                               w_offline)).
Proof. refine (get_sync_log_negative_limit (-25) _ _). reflexivity. Defined.

(** ** Synchronising every profile *)

Lemma sync_each_reaches (ids : list string) (strategy : string)
    (acc : list sync_result) (w : world) :
  reaches (replica_among ids) w (sync_each ids strategy acc w).2.
Proof.
  revert acc w. induction ids as [|profile_id ids IH]; intros acc w; [apply reaches_here|].
  cbn [sync_each].
  pose proof (sync_profile_reaches profile_id strategy w) as H.
  destruct (sync_profile profile_id strategy w) as [[r|e] w1]; cbn [snd] in H.
  - apply reaches_trans with w1.
    + apply (reaches_mono (replica_of profile_id)); [|done].
      intros p Hp. exists profile_id. split; [left|done].
    + apply (reaches_mono (replica_among ids)); [|apply IH].
      intros p (i & Hi & Hp). exists i. split; [by right|done].
  - apply (reaches_mono (replica_of profile_id)); [|done].
    intros p Hp. exists profile_id. split; [left|done].
Qed.

Lemma sync_each_returns (ids : list string) (strategy : string)
    (acc : list sync_result) (w : world) :
  strategy <> "newest" ->
  exists results,
    (sync_each ids strategy acc w).1 = Returns (acc ++ results)
    /\ length results = length ids.
Proof.
  intros Hs. revert acc w.
  induction ids as [|profile_id ids IH]; intros acc w.
  { exists []. by rewrite app_nil_r. }
  cbn [sync_each].
  destruct (sync_profile profile_id strategy w) as [[r|e] w1] eqn:E.
  - destruct (IH (acc ++ [r]) w1) as (results & H1 & H2).
    exists (r :: results). rewrite H1, <- app_assoc. split; [done|]. simpl. by rewrite H2.
  - destruct (sync_profile_raises_inv profile_id strategy w e) as (Hn & _).
    { by rewrite E. }
    done.
Qed.

Lemma last_lastn_snoc {A} (n : nat) (l : list A) (x : A) :
  (0 < n)%nat -> last (lastn n (l ++ [x])) = Some x.
Proof.
  intros Hn. unfold lastn. rewrite length_app. simpl length.
  rewrite drop_app_le by lia. apply last_snoc.
Qed.

(** X14: under a strategy other than [newest] and [merge] (that is
    [local], [cloud], or a name that is no strategy), under which
    [sync_profile] never raises, [sync_all_profiles] returns one result
    for each name of the listing that ends in [.json] and does not
    start with [cloud_], and the last entry of the log is then the
    [info] entry that counts them.  ([newest] raises on stamps that
    cannot be compared; [merge] is left out because the Python code
    raises under it on a file that holds JSON other than an object, a
    file the directories of this development do not contain.) *)
Theorem sync_all_returns_one_result_per_profile (listing : list string)
    (strategy : string) (w : world) :
  strategy <> "newest" -> strategy <> "merge" ->
  let out := sync_all_profiles listing strategy w in
  exists results t,
    out.1 = Returns results
    /\ length results
       = length (List.filter (fun f => endswith ".json" f && negb (startswith "cloud_" f))
                             listing)
    /\ last (sync_log out.2)
       = Some (LogEntry t "info"
                 ("Synced " +:+ repr_int (Z.of_nat (length results)) +:+ " profiles")).
Proof.
  intros Hs _. cbv zeta. unfold sync_all_profiles.
  destruct (sync_each_returns (local_profile_ids listing) strategy [] w Hs)
    as (results & H1 & H2).
  destruct (sync_each (local_profile_ids listing) strategy [] w) as [o w1].
  cbn [fst] in H1. subst o. cbn [app fst snd].
  exists results, (clock w1 (ticks w1)). split; [done|]. split.
  - rewrite H2. unfold local_profile_ids. by rewrite length_map.
  - rewrite sync_log_log_sync. apply last_lastn_snoc. lia.
Qed.

Lemma sync_all_returns_one_result_per_profile_witness :
  exists results t,
    (sync_all_profiles ["hero.json"; "notes.txt"; "cloud_hero.json"] "local"
                       w_conflict).1 = Returns results
    /\ length results = 1%nat
    /\ last (sync_log (sync_all_profiles ["hero.json"; "notes.txt"; "cloud_hero.json"]
                                         "local" w_conflict).2)
       = Some (LogEntry t "info"
                 ("Synced " +:+ repr_int (Z.of_nat (length results)) +:+ " profiles")).
Proof.
  exact (sync_all_returns_one_result_per_profile
           ["hero.json"; "notes.txt"; "cloud_hero.json"] "local" w_conflict
           ltac:(discriminate) ltac:(discriminate)).
Defined.

(** X15: [sync_all_profiles] writes only to replicas of the profiles
    it draws from the listing, and removes no file. *)
Theorem sync_all_touches_only_listed_replicas (listing : list string)
    (strategy : string) (w : world) (path : string) :
  let w' := (sync_all_profiles listing strategy w).2 in
  ((forall profile_id, profile_id ∈ local_profile_ids listing ->
                       path <> local_path profile_id /\ path <> cloud_path profile_id) ->
   files w' !! path = files w !! path)
  /\ (is_Some (files w !! path) -> is_Some (files w' !! path)).
Proof.
  intros w'.
  assert (H : reaches (replica_among (local_profile_ids listing)) w w').
  { unfold w', sync_all_profiles.
    pose proof (sync_each_reaches (local_profile_ids listing) strategy [] w) as H.
    destruct (sync_each (local_profile_ids listing) strategy [] w) as [[r|e] w1];
      cbn [snd] in *; [|done].
    apply reaches_log; [set_solver|done]. }
  destruct (reaches_files _ _ _ H path) as [H1 H2]. split; [|exact H2].
  intros Hp. apply H1. intros (i & Hi & Hr). destruct (Hp i Hi) as [? ?].
  by destruct Hr.
Qed.

Lemma sync_all_touches_only_listed_replicas_witness :
  files (sync_all_profiles ["hero.json"; "cloud_hero.json"] "local" w_bad_stamp).2
    !! "mage.json"
  = files w_bad_stamp !! "mage.json".
Proof.
  refine (proj1 (sync_all_touches_only_listed_replicas
                   ["hero.json"; "cloud_hero.json"] "local" w_bad_stamp "mage.json") _).
  intros i Hi. vm_compute in Hi.
  apply list_elem_of_singleton in Hi as ->. split; discriminate.
Defined.

(** X16: a profile whose synchronisation raises ends the whole batch:
    when [sync_profile] raises on the first profile drawn from the
    listing, [sync_all_profiles] raises the same exception, returns no
    result, logs no count and has written no file, so that the profiles
    after it are left unsynchronised. *)
Theorem sync_all_stops_at_a_raise (listing : list string) (strategy : string)
    (w : world) (profile_id : string) (rest : list string) (e : string) :
  local_profile_ids listing = profile_id :: rest ->
  (sync_profile profile_id strategy w).1 = Raises e ->
  sync_all_profiles listing strategy w = (Raises e, (sync_profile profile_id strategy w).2)
  /\ files (sync_all_profiles listing strategy w).2 = files w.
Proof.
  intros Hids Hraise.
  destruct (sync_profile_raises_inv _ _ _ _ Hraise) as (_ & _ & Hfiles).
  assert (Hall : sync_all_profiles listing strategy w
                 = (Raises e, (sync_profile profile_id strategy w).2)).
  { unfold sync_all_profiles. rewrite Hids. cbn [sync_each].
    destruct (sync_profile profile_id strategy w) as [o w1]. cbn [fst snd] in *.
    by subst o. }
  split; [exact Hall|]. by rewrite Hall.
Qed.

Lemma sync_all_stops_at_a_raise_witness :
  (sync_all_profiles ["hero.json"; "cloud_hero.json"; "mage.json"] "newest"
                     w_bad_stamp).1 = Raises "TypeError"
  /\ files (sync_all_profiles ["hero.json"; "cloud_hero.json"; "mage.json"] "newest"
                              w_bad_stamp).2 !! "cloud_mage.json" = None.
Proof.
  assert (Hids : local_profile_ids ["hero.json"; "cloud_hero.json"; "mage.json"]
                 = ["hero"; "mage"]) by (vm_compute; reflexivity).
  assert (Hr : (sync_profile "hero" "newest" w_bad_stamp).1 = Raises "TypeError")
    by (vm_compute; reflexivity).
  destruct (sync_all_stops_at_a_raise _ "newest" w_bad_stamp "hero" ["mage"] "TypeError"
              Hids Hr) as [H1 H2].
  split; [by rewrite H1|]. rewrite H2. reflexivity.
Defined.

(** ** The profile ids drawn from a listing *)

Lemma prefix_empty (s : string) : String.prefix "" s = true.
Proof. by destruct s. Qed.

Lemma prefix_append_l (p s : string) : String.prefix p (p +:+ s) = true.
Proof.
  induction p as [|a p IH]; [apply prefix_empty|].
  simpl. destruct (ascii_dec a a) as [_|Hne]; [exact IH|by destruct Hne].
Qed.

Lemma dot_free_cons (c : ascii) (s : string) :
  dot_free (String c s) -> c <> "."%char /\ dot_free s.
Proof.
  cbn [dot_free]. intros [Hc Hs]%andb_True. split; [|done].
  intros ->. by rewrite Ascii.eqb_refl in Hc.
Qed.

Lemma prefix_append_json (p s : string) :
  dot_free p -> String.prefix p s = false -> String.prefix p (s +:+ ".json") = false.
Proof.
  revert s. induction p as [|a p IH]; intros s Hp Hs.
  { by rewrite prefix_empty in Hs. }
  apply dot_free_cons in Hp as [Ha Hp].
  destruct s as [|b s]; simpl in *.
  - by destruct (ascii_dec a ".").
  - destruct (ascii_dec a b); [auto|done].
Qed.

Lemma prefix_cons_ne (a c : ascii) (p s : string) :
  a <> c -> String.prefix (String a p) (String c s) = false.
Proof. intros Hne. simpl. by destruct (ascii_dec a c). Qed.

Lemma substring_append_skip (s t : string) (n : nat) :
  String.substring (String.length s) n (s +:+ t) = String.substring 0 n t.
Proof. induction s as [|c s IH]; [done|]. exact IH. Qed.

Lemma endswith_local_path (profile_id : string) :
  endswith ".json" (local_path profile_id) = true.
Proof.
  unfold endswith, local_path. rewrite length_append.
  change (String.length ".json") with 5%nat.
  replace (String.length profile_id + 5 - 5)%nat with (String.length profile_id) by lia.
  rewrite substring_append_skip.
  apply andb_true_intro. split; [apply Nat.leb_le; lia|reflexivity].
Qed.

Lemma str_replace_local_path (profile_id : string) :
  dot_free profile_id -> str_replace ".json" "" (local_path profile_id) = profile_id.
Proof.
  unfold str_replace, local_path.
  induction profile_id as [|c s IH]; intros Hd; [reflexivity|].
  apply dot_free_cons in Hd as [Hc Hd].
  change (String c s +:+ ".json") with (String c (s +:+ ".json")).
  cbn [replace_from]. rewrite prefix_cons_ne by (by intros E; symmetry in E).
  f_equal. by apply IH.
Qed.

(** X17: the ids [sync_all_profiles] draws from a listing are drawn
    name by name, in the order of the listing: none from the remote
    shadow [cloud_<id>.json] of a profile, none from a name that does
    not end in [.json], and the id itself from the local file
    [<id>.json] of a profile whose id contains no dot and does not
    start with [cloud_]. *)
Theorem ids_drawn_from_a_listing :
  (forall l1 l2,
      local_profile_ids (l1 ++ l2) = local_profile_ids l1 ++ local_profile_ids l2)
  /\ (forall profile_id, local_profile_ids [cloud_path profile_id] = [])
  /\ (forall name, endswith ".json" name = false -> local_profile_ids [name] = [])
  /\ (forall profile_id,
        dot_free profile_id -> startswith "cloud_" profile_id = false ->
        local_profile_ids [local_path profile_id] = [profile_id]).
Proof.
  split; [|split; [|split]].
  - intros l1 l2. unfold local_profile_ids. by rewrite List.filter_app, map_app.
  - intros i. unfold local_profile_ids. cbn [List.filter].
    assert (startswith "cloud_" (cloud_path i) = true) as ->.
    { unfold startswith, cloud_path. apply prefix_append_l. }
    by rewrite andb_false_r.
  - intros name Hn. unfold local_profile_ids. cbn [List.filter]. by rewrite Hn.
  - intros i Hd Hs. unfold local_profile_ids. cbn [List.filter].
    rewrite endswith_local_path.
    assert (startswith "cloud_" (local_path i) = false) as ->.
    { unfold startswith, local_path in *. by apply prefix_append_json. }
    cbn [andb negb map]. by rewrite str_replace_local_path.
Qed.

Lemma ids_drawn_from_a_listing_witness :
  local_profile_ids [local_path "mage"] = ["mage"]
  /\ local_profile_ids ["notes.txt"] = [].
Proof.
  destruct ids_drawn_from_a_listing as (_ & _ & H3 & H4).
  exact (conj (H4 "mage" I eq_refl) (H3 "notes.txt" eq_refl)).
Defined.

(** ** Documents keep unique keys *)

Lemma wf_dict_set (d : dict) (k : string) (v : json) :
  wf (JDict d) -> wf v -> wf (JDict (dict_set k v d)).
Proof.
  rewrite !wf_dict. intros [Hnd Hv] Hwv. split.
  - rewrite dict_set_keys. destruct (decide (k ∈ d.*1)); [done|].
    apply NoDup_app. split; [done|]. split; [|apply NoDup_singleton].
    intros x Hx ->%list_elem_of_singleton. done.
  - clear Hnd. induction d as [|[k0 v0] d IH]; cbn [dict_set].
    + by apply Forall_singleton.
    + apply Forall_cons in Hv as [Hv0 Hv].
      destruct (String.eqb k k0); apply Forall_cons; auto.
Qed.

Lemma wf_dict_union (l c : dict) :
  wf (JDict l) -> wf (JDict c) -> wf (JDict (dict_union l c)).
Proof.
  revert l. induction c as [|[k v] c IH]; intros l Hl Hc; [done|].
  change (dict_union l ((k, v) :: c)) with (dict_union (dict_set k v l) c).
  apply wf_dict in Hc as [Hnd Hv].
  rewrite fmap_cons in Hnd. apply NoDup_cons in Hnd as [_ Hnd].
  apply Forall_cons in Hv as [Hv Hvs].
  apply IH; [by apply wf_dict_set|]. by apply wf_dict.
Qed.

Lemma resolve_conflict_wf (l c r : dict) (strategy : string) (w : world) :
  wf (JDict l) -> wf (JDict c) ->
  (resolve_conflict l c strategy w).1 = Returns r -> wf (JDict r).
Proof.
  intros Hl Hc. unfold resolve_conflict.
  destruct (String.eqb strategy "newest").
  { destruct (py_gt _ _) as [[|]|]; cbn [fst]; [by intros [= <-]..|discriminate]. }
  destruct (String.eqb strategy "local"); [by intros [= <-]|].
  destruct (String.eqb strategy "cloud"); [by intros [= <-]|].
  destruct (String.eqb strategy "merge"); [|by intros [= <-]].
  intros [= <-]. by apply wf_dict_union.
Qed.

Lemma reaches_no_write (w w' : world) :
  reaches (fun _ => False) w w' -> files w' = files w.
Proof.
  intros H. apply map_eq. intros p.
  apply (proj1 (reaches_files _ _ _ H p)). tauto.
Qed.

Lemma files_wf_same (w w' : world) : files w' = files w -> files_wf w -> files_wf w'.
Proof. unfold files_wf. by intros ->. Qed.

Lemma files_wf_insert (w w' : world) (path : string) (d : dict) :
  files w' = <[path := Holds d]> (files w) -> wf (JDict d) -> files_wf w -> files_wf w'.
Proof.
  unfold files_wf. intros -> Hd Hw p d'.
  destruct (decide (path = p)) as [->|Hne].
  - rewrite lookup_insert_eq. by intros [= <-].
  - rewrite lookup_insert_ne by done. apply Hw.
Qed.

Lemma saved_doc_wf (t : string) (d : dict) : wf (JDict d) -> wf (JDict (saved_doc t d)).
Proof. intros Hd. unfold saved_doc. cbv zeta. by repeat apply wf_dict_set. Qed.

Lemma save_local_profile_wf (profile_id : string) (d : dict) (w : world) :
  files_wf w -> wf (JDict d) ->
  files_wf (save_local_profile profile_id d w).2
  /\ wf (JDict (save_local_profile profile_id d w).1.2).
Proof.
  intros Hw Hd. pose proof (saved_doc_wf (clock w (ticks w)) d Hd) as Hs.
  destruct (write_fault w (local_path profile_id)) as [e|] eqn:E.
  - rewrite (save_local_profile_fault _ _ _ _ E). cbn [fst snd]. split; [|done].
    by apply (files_wf_same w).
  - rewrite (save_local_profile_ok _ _ _ E). cbn [fst snd]. split; [|done].
    by eapply (files_wf_insert w).
Qed.

Lemma push_cloud_profile_wf (profile_id : string) (d : dict) (w : world) :
  files_wf w -> wf (JDict d) ->
  files_wf (push_cloud_profile profile_id d w).2
  /\ wf (JDict (push_cloud_profile profile_id d w).1.2).
Proof.
  intros Hw Hd.
  assert (Hp : wf (JDict (pushed_doc (clock w (ticks w)) d))) by by apply wf_dict_set.
  destruct (cloud_enabled w) eqn:Hon.
  - destruct (write_fault w (cloud_path profile_id)) as [e|] eqn:E.
    + unfold push_cloud_profile, now. rewrite Hon. simpl. rewrite E. cbn [fst snd].
      split; [|done]. by apply (files_wf_same w).
    + rewrite (push_cloud_profile_ok _ _ _ Hon E). cbn [fst snd]. split; [|done].
      by eapply (files_wf_insert w).
  - by rewrite (push_cloud_profile_disabled _ _ _ Hon).
Qed.

Lemma present_inv (o : option dict) (d : dict) : present o = Some d -> o = Some d.
Proof. destruct o as [[|kv d']|]; by intros [= <-]. Qed.

Lemma load_local_profile_wf (profile_id : string) (w : world) (d : dict) :
  files_wf w -> (load_local_profile profile_id w).1 = Some d -> wf (JDict d).
Proof.
  intros Hw. unfold load_local_profile.
  destruct (files w !! local_path profile_id) as [[d'|e]|] eqn:E; cbn [fst]; try done.
  intros [= <-]. by apply (Hw _ _ E).
Qed.

Lemma fetch_cloud_profile_wf (profile_id : string) (w : world) (d : dict) :
  files_wf w -> (fetch_cloud_profile profile_id w).1 = Some d -> wf (JDict d).
Proof.
  intros Hw. unfold fetch_cloud_profile. destruct (cloud_enabled w); cbn [negb fst]; [|done].
  destruct (files w !! cloud_path profile_id) as [[d'|e]|] eqn:E; cbn [fst]; try done.
  intros [= <-]. by apply (Hw _ _ E).
Qed.

(** X18: the engine writes no document with a repeated key: when every
    document of the directory has unique keys at every nesting level,
    so has every document of the directory after [sync_profile], and so
    has the profile it returns. *)
Theorem sync_keeps_keys_unique (profile_id strategy : string) (w : world) :
  files_wf w ->
  let out := sync_profile profile_id strategy w in
  files_wf out.2 /\ forall d, result_profile out.1 = Some d -> wf (JDict d).
Proof.
  intros Hw. cbv zeta. unfold sync_profile.
  pose proof (load_local_profile_wf profile_id w) as Hl.
  pose proof (load_local_profile_files profile_id w) as Hf1.
  destruct (load_local_profile profile_id w) as [l w1]. cbn [fst snd] in *.
  assert (Hw1 : files_wf w1) by by apply (files_wf_same w).
  pose proof (fetch_cloud_profile_wf profile_id w1) as Hc.
  destruct (fetch_cloud_profile_frame profile_id w1) as (Hf2 & _).
  destruct (fetch_cloud_profile profile_id w1) as [c w2]. cbn [fst snd] in *.
  assert (Hw2 : files_wf w2) by by apply (files_wf_same w1).
  destruct (present l) as [l'|] eqn:El, (present c) as [c'|] eqn:Ec;
    try apply present_inv in El; try apply present_inv in Ec.
  - assert (Hl' : wf (JDict l')) by auto. assert (Hc' : wf (JDict c')) by auto.
    destruct (String.eqb _ _).
    { split; [done|]. by intros d [= <-]. }
    pose proof (resolve_conflict_wf l' c') as Hr.
    pose proof (resolve_conflict_reaches (fun _ => False) l' c' strategy w2) as Hreach.
    destruct (resolve_conflict l' c' strategy w2) as [[r|e] w3] eqn:Er; cbn [fst snd] in *.
    + assert (Hw3 : files_wf w3).
      { apply (files_wf_same w2); [|done]. by apply reaches_no_write. }
      assert (Hr' : wf (JDict r)).
      { apply (Hr r strategy w2); [done..|]. by rewrite Er. }
      destruct (save_local_profile_wf profile_id r w3 Hw3 Hr') as [Hw4 Hr1].
      destruct (save_local_profile profile_id r w3) as [[ok r1] w4]. cbn [fst snd] in *.
      destruct (push_cloud_profile_wf profile_id r1 w4 Hw4 Hr1) as [Hw5 Hr2].
      destruct (push_cloud_profile profile_id r1 w4) as [[ok' r2] w5]. cbn [fst snd] in *.
      split; [done|]. by intros d [= <-].
    + split; [|done].
      apply (files_wf_same w2); [|done]. by apply reaches_no_write.
  - assert (Hl' : wf (JDict l')) by auto.
    destruct (push_cloud_profile_wf profile_id l' w2 Hw2 Hl') as [Hw3 Hr1].
    destruct (push_cloud_profile profile_id l' w2) as [[ok r1] w3]. cbn [fst snd] in *.
    split; [done|]. by intros d [= <-].
  - assert (Hc' : wf (JDict c')) by auto.
    destruct (save_local_profile_wf profile_id c' w2 Hw2 Hc') as [Hw3 Hr1].
    destruct (save_local_profile profile_id c' w2) as [[ok r1] w3]. cbn [fst snd] in *.
    split; [done|]. by intros d [= <-].
  - split; [done|]. done.
Qed.

Lemma sync_keeps_keys_unique_witness :
  files_wf (sync_profile "hero" "merge" w_conflict).2.
Proof.
  refine (proj1 (sync_keeps_keys_unique "hero" "merge" w_conflict _)).
  intros path d Hd.
  destruct (decide (path = "hero.json")) as [->|H1].
  { vm_compute in Hd. injection Hd as <-. vm_compute. exact I. }
  destruct (decide (path = "cloud_hero.json")) as [->|H2].
  { vm_compute in Hd. injection Hd as <-. vm_compute. exact I. }
  unfold w_conflict, ProfileSync in Hd. cbn [files] in Hd.
  rewrite lookup_insert_ne in Hd by done.
  by rewrite lookup_singleton_ne in Hd.
Defined.

(** ** Witnesses of the case analysis *)

Lemma absent_profile_not_found_witness :
  sync_profile "ghost" "newest" w_local_only
  = (Returns (SyncResult "error" "profile_not_found" None None), w_local_only).
Proof. apply (absent_profile_not_found "ghost" "newest" w_local_only); reflexivity. Defined.

Lemma sync_profile_status_witness :
  status (SyncResult "error" "profile_not_found" None None) = "error"
  /\ present (load_local_profile "hero" w_empty_doc).1 = None.
Proof.
  assert (E : sync_profile "hero" "newest" w_empty_doc
              = (Returns (SyncResult "error" "profile_not_found" None None), w_empty_doc))
    by (vm_compute; reflexivity).
  destruct (sync_profile_status "hero" "newest" w_empty_doc _ _ E)
    as [(H1 & _ & _ & H2 & _)|(H1 & _)].
  - exact (conj H1 H2).
  - discriminate H1.
Defined.

Lemma known_strategy_logs_witness :
  exists m, log_sync "Conflict resolved using cloud version" "info" w_conflict
            = log_sync m "info" w_conflict.
Proof.
  apply (known_strategy_logs hero_local hero_cloud "cloud" w_conflict hero_cloud).
  - set_solver.
  - reflexivity.
Defined.
